(** * MQTT-to-QuestDB subscriber and FastAPI query service

    A shallow embedding of [docker/QuestDB/subscriber/subscriber.py] and of
    the [/temperatur] endpoint of [docker/QuestDB/app/main.py], and the
    properties of the ingestion pipeline stated over it.

    Python values are an inductive type, exceptions are an error result,
    and the store, the clock and the console are an explicit world that
    every effectful function threads through. *)

From Stdlib Require Import Bool List ZArith Lia.
From Stdlib Require Import Strings.Ascii Strings.String.
From Stdlib Require Import Floats.PrimFloat Floats.SpecFloat Floats.FloatOps.
Import ListNotations.

Local Open Scope string_scope.
Local Open Scope Z_scope.
Local Open Scope list_scope.

#[local] Set Warnings "-register-all,-inexact-float".

(** ** Python values

    The values [json.loads] can return.  A [str] is a Rocq string whose
    characters are read as code points below 256.  A [dict] keeps its
    items in insertion order, as Python does; [json.loads] leaves one item
    per key. *)

Inductive pyval : Type :=
| PNone
| PBool (b : bool)
| PInt (z : Z)
| PFloat (f : float)
| PStr (s : string)
| PList (l : list pyval)
| PDict (d : list (string * pyval)).

(** Exceptions, by class, a subclass counting as its class.
    [OperationalError], [ProgrammingError], [DataError] and
    [InterfaceError] are psycopg2's ([InterfaceError] is not an
    [OperationalError]); [GenericException] is a bare [Exception(msg)].
    Every class here derives from [Exception]. *)

Inductive exn : Type :=
| TypeError
| ValueError
| OverflowError
| AttributeError
| UnicodeDecodeError
| JSONDecodeError
| OperationalError
| ProgrammingError
| DataError
| InterfaceError
| GenericException (msg : string).

Definition is_OperationalError (e : exn) : bool :=
  match e with
  | OperationalError => true
  | _ => false
  end.

Inductive outcome (A : Type) : Type :=
| Ok (a : A)
| Raise (e : exn).

Arguments Ok {A} a.
Arguments Raise {A} e.

Definition obind {A B} (x : outcome A) (k : A -> outcome B) : outcome B :=
  match x with
  | Ok a => k a
  | Raise e => Raise e
  end.

(** ** Strings *)

Definition slash : ascii := "/"%char.

(** [s.split("/")]: one more part than there are slashes, never empty. *)
Fixpoint split (sep : ascii) (s : string) : list string :=
  match s with
  | EmptyString => [EmptyString]
  | String c rest =>
      if Ascii.eqb c sep then EmptyString :: split sep rest
      else match split sep rest with
           | [] => [String c EmptyString]
           | p :: ps => String c p :: ps
           end
  end.

(** ["/".join(parts)]. *)
Fixpoint join (sep : ascii) (parts : list string) : string :=
  match parts with
  | [] => EmptyString
  | [p] => p
  | p :: ps => (p ++ String sep (join sep ps))%string
  end.

Fixpoint contains (c : ascii) (s : string) : bool :=
  match s with
  | EmptyString => false
  | String a rest => Ascii.eqb a c || contains c rest
  end.

(** [s * n] on strings and lists. *)
Fixpoint str_repeat (s : string) (n : nat) : string :=
  match n with
  | O => EmptyString
  | S k => (s ++ str_repeat s k)%string
  end.

Fixpoint list_repeat {A} (l : list A) (n : nat) : list A :=
  match n with
  | O => []
  | S k => l ++ list_repeat l k
  end.

(** ** Dictionaries *)

Fixpoint dict_get (d : list (string * pyval)) (k : string) : option pyval :=
  match d with
  | [] => None
  | (k', v) :: rest => if String.eqb k' k then Some v else dict_get rest k
  end.

Definition dict_get_or (d : list (string * pyval)) (k : string)
  (default : pyval) : pyval :=
  match dict_get d k with
  | Some v => v
  | None => default
  end.

(** [m.get(k, default)]: [AttributeError] when [m] is not a dict (lists,
    strings and numbers have no [get]). *)
Definition py_get_default (m : pyval) (k : string) (default : pyval)
  : outcome pyval :=
  match m with
  | PDict d => Ok (dict_get_or d k default)
  | _ => Raise AttributeError
  end.

(** [m.get(k)]: the default is [None]. *)
Definition py_get (m : pyval) (k : string) : outcome pyval :=
  py_get_default m k PNone.

(** ** Topic dimensions (subscriber.py, lines 52-57) *)

Record dimensions : Type := {
  namespace : option string;
  group : option string;
  mtype : option string;
  node : option string;
  device : option string
}.

(** [parts[i] if len(parts) > i else None]. *)
Definition part (parts : list string) (i : nat) : option string :=
  if (Z.of_nat (List.length parts) >? Z.of_nat i) then nth_error parts i else None.

Definition topic_dimensions (topic : string) : dimensions :=
  let parts := split slash topic in
  {| namespace := part parts 0;
     group := part parts 1;
     mtype := part parts 2;
     node := part parts 3;
     device := part parts 4 |}.

Definition labels (d : dimensions) : list (option string) :=
  [namespace d; group d; mtype d; node d; device d].

(** ** Numeric coercion: [float(v)]

    [float] of a [str] follows CPython: code points from 127 up are mapped
    to a space when they are white space (U+0085 and U+00A0 below 256) and
    to ['?'] otherwise, underscores are accepted between digits only, ASCII
    white space is stripped at both ends, and what is left must be a signed
    [inf], [infinity], [nan] (any case) or a decimal literal with an
    optional exponent.  The literal is rounded to the nearest binary64
    value, ties to even; too large a literal gives an infinity. *)

Definition code (c : ascii) : Z := Z.of_N (N_of_ascii c).

Definition is_digit (c : ascii) : bool := (48 <=? code c) && (code c <=? 57).

Definition is_space (c : ascii) : bool :=
  ((9 <=? code c) && (code c <=? 13)) || (code c =? 32).

Definition to_ascii_space (c : ascii) : ascii :=
  if code c <? 127 then c
  else if (code c =? 133) || (code c =? 160) then " "%char
  else "?"%char.

Definition lower (c : ascii) : ascii :=
  if (65 <=? code c) && (code c <=? 90)
  then ascii_of_N (N_of_ascii c + 32) else c.

(** Underscores are allowed after a digit and before a digit only. *)
Fixpoint strip_underscores (prev : ascii) (s : list ascii)
  : option (list ascii) :=
  match s with
  | [] => if Ascii.eqb prev "_" then None else Some []
  | c :: rest =>
      if Ascii.eqb c "_" then
        if is_digit prev then strip_underscores c rest else None
      else if Ascii.eqb prev "_" && negb (is_digit c) then None
      else option_map (cons c) (strip_underscores c rest)
  end.

Fixpoint lstrip (s : list ascii) : list ascii :=
  match s with
  | c :: rest => if is_space c then lstrip rest else s
  | [] => []
  end.

Definition strip (s : list ascii) : list ascii :=
  rev (lstrip (rev (lstrip s))).

Fixpoint span_digits (s : list ascii) : list ascii * list ascii :=
  match s with
  | c :: rest =>
      if is_digit c then
        let (ds, tl) := span_digits rest in (c :: ds, tl)
      else ([], s)
  | [] => ([], [])
  end.

Definition digits_value (ds : list ascii) : Z :=
  fold_left (fun acc c => 10 * acc + (code c - 48)) ds 0.

Definition take_sign (s : list ascii) : bool * list ascii :=
  match s with
  | "-"%char :: rest => (true, rest)
  | "+"%char :: rest => (false, rest)
  | _ => (false, s)
  end.

(** A decimal literal: sign, digits, optional fraction, optional exponent;
    the result is (negative, m, e) for the number m * 10^e. *)
Definition parse_decimal (s : list ascii) : option (bool * Z * Z) :=
  let (neg, s1) := take_sign s in
  let (ip, s2) := span_digits s1 in
  let (fp, s3) :=
    match s2 with
    | "."%char :: t => span_digits t
    | _ => ([], s2)
    end in
  match ip ++ fp with
  | [] => None
  | ds =>
      let m := digits_value ds in
      let shift := Z.of_nat (List.length fp) in
      match s3 with
      | [] => Some (neg, m, - shift)
      | c :: t =>
          if Ascii.eqb (lower c) "e" then
            let (eneg, t1) := take_sign t in
            match span_digits t1 with
            | ((_ :: _) as ed, []) =>
                let e := digits_value ed in
                Some (neg, m, (if eneg then - e else e) - shift)
            | _ => None
            end
          else None
      end
  end.

(** The binary64 value nearest to m * 10^e, for m >= 0. *)
Definition decimal_to_float (neg : bool) (m e : Z) : float :=
  if m =? 0 then (if neg then neg_zero else zero)
  else
    let sf :=
      if 0 <=? e then binary_normalize prec emax (m * 10 ^ e) 0 false
      else SFdiv prec emax (S754_finite false (Z.to_pos m) 0)
                           (S754_finite false (Z.to_pos (10 ^ (- e))) 0) in
    SF2Prim (if neg then SFopp sf else sf).

Definition parse_inf_nan (s : list ascii) : option float :=
  let (neg, s1) := take_sign s in
  let word := string_of_list_ascii (map lower s1) in
  if String.eqb word "inf" || String.eqb word "infinity"
  then Some (if neg then neg_infinity else infinity)
  else if String.eqb word "nan" then Some nan
  else None.

Definition float_of_str (s : string) : outcome float :=
  let t := map to_ascii_space (list_ascii_of_string s) in
  match (if existsb (Ascii.eqb "_") t then strip_underscores Ascii.zero t
         else Some t) with
  | None => Raise ValueError
  | Some t' =>
      let body := strip t' in
      match parse_inf_nan body with
      | Some f => Ok f
      | None =>
          match parse_decimal body with
          | Some (neg, m, e) => Ok (decimal_to_float neg m e)
          | None => Raise ValueError
          end
      end
  end.

(** [float(n)] for an [int]: nearest binary64 value, [OverflowError] when
    that would be an infinity. *)
Definition float_of_int (z : Z) : outcome float :=
  match binary_normalize prec emax z 0 false with
  | S754_infinity _ => Raise OverflowError
  | sf => Ok (SF2Prim sf)
  end.

Definition py_float (v : pyval) : outcome float :=
  match v with
  | PFloat f => Ok f
  | PInt z => float_of_int z
  | PBool b => Ok (if b then one else zero)
  | PStr s => float_of_str s
  | PNone | PList _ | PDict _ => Raise TypeError
  end.

(** [v * 1000]: exact on [int] (and [bool], an [int] subclass), the
    binary64 product on [float], repetition on [str] and [list];
    [None] and [dict] do not support it. *)
Definition py_mul_1000 (v : pyval) : outcome pyval :=
  match v with
  | PInt z => Ok (PInt (z * 1000))
  | PBool b => Ok (PInt ((if b then 1 else 0) * 1000))
  | PFloat f => Ok (PFloat (f * 1000)%float)
  | PStr s => Ok (PStr (str_repeat s 1000))
  | PList l => Ok (PList (list_repeat l 1000))
  | PNone | PDict _ => Raise TypeError
  end.

(** ** Rows, the store and the world *)

(** One tuple appended to [rows], named by the column it is inserted in. *)
Record row : Type := {
  row_namespace : option string;
  row_group_name : option string;
  row_type : option string;
  row_node : option string;
  row_device : option string;
  row_metric_name : pyval;
  row_metric_alias : pyval;
  row_value : option float;
  row_ts : pyval
}.

(** What is printed, without the formatting. *)
Inductive text : Type :=
| TableReady
| NotReady (attempt retries delay : Z)
| Inserted (n : Z) (topic : string)
| ErrorProcessing (topic : string) (e : exn).

Inductive event : Type :=
| Connect
| CreateTable
| InsertRows (rows : list row)
| Commit
| Rollback
| Sleep (seconds : Z)
| Printed (t : text).

(** How the store answers one connection: it refuses it; or it fails a
    statement or the commit sent on it and the connection stays usable;
    or the connection is lost while a statement or the commit runs, so
    that the call raises and the connection is left closed; or it serves
    it. *)
Inductive response : Type :=
| Healthy
| ConnectFails (e : exn)
| ExecuteFails (e : exn)
| CommitFails (e : exn)
| ExecuteDrops (e : exn)
| CommitDrops (e : exn).

Record world : Type := {
  store : nat -> response;   (* answer to the n-th connection attempt *)
  connections : nat;         (* connection attempts made so far *)
  pending : list row;        (* rows inserted and not yet committed *)
  mqtt_metrics : list row;   (* committed rows of the table *)
  trace : list event         (* what happened, oldest first *)
}.

Definition M (A : Type) : Type := world -> outcome A * world.

Definition ret {A} (a : A) : M A := fun w => (Ok a, w).

Definition raise {A} (e : exn) : M A := fun w => (Raise e, w).

Definition bind {A B} (m : M A) (k : A -> M B) : M B :=
  fun w =>
    match m w with
    | (Ok a, w') => k a w'
    | (Raise e, w') => (Raise e, w')
    end.

Definition lift {A} (x : outcome A) : M A := fun w => (x, w).

Notation "x <- m ;; k" := (bind m (fun x => k))
  (at level 61, m at next level, right associativity).
Notation "m ;;; k" := (bind m (fun _ => k))
  (at level 61, right associativity).

Definition log (e : event) (w : world) : world :=
  {| store := store w;
     connections := connections w;
     pending := pending w;
     mqtt_metrics := mqtt_metrics w;
     trace := trace w ++ [e] |}.

Definition print (t : text) : M unit := fun w => (Ok tt, log (Printed t) w).

(** [time.sleep(d)] refuses a negative length. *)
Definition sleep (d : Z) : M unit :=
  fun w => if d <? 0 then (Raise ValueError, w) else (Ok tt, log (Sleep d) w).

(** [psycopg2.connect(QDB_CONN)]; the connection is named by its rank. *)
Definition connect : M nat := fun w =>
  let n := connections w in
  let w' := {| store := store w;
               connections := S n;
               pending := [];
               mqtt_metrics := mqtt_metrics w;
               trace := trace w ++ [Connect] |} in
  match store w n with
  | ConnectFails e => (Raise e, w')
  | _ => (Ok n, w')
  end.

Definition commit (conn : nat) : M unit := fun w =>
  match store w conn with
  | CommitFails e | CommitDrops e => (Raise e, w)
  | _ => (Ok tt, {| store := store w;
                    connections := connections w;
                    pending := [];
                    mqtt_metrics := mqtt_metrics w ++ pending w;
                    trace := trace w ++ [Commit] |})
  end.

(** [conn.rollback()]: on a connection that was lost it raises
    [InterfaceError] (connection already closed). *)
Definition rollback (conn : nat) : M unit := fun w =>
  match store w conn with
  | ExecuteDrops _ | CommitDrops _ =>
      (Raise InterfaceError,
       {| store := store w;
          connections := connections w;
          pending := [];
          mqtt_metrics := mqtt_metrics w;
          trace := trace w |})
  | _ =>
      (Ok tt, {| store := store w;
                 connections := connections w;
                 pending := [];
                 mqtt_metrics := mqtt_metrics w;
                 trace := trace w ++ [Rollback] |})
  end.

(** [with psycopg2.connect(QDB_CONN) as conn: body]: the block's exit
    commits when the body returned and rolls back when it raised; an
    exception of that rollback replaces the one of the body. *)
Definition with_connection {A} (body : nat -> M A) : M A :=
  conn <- connect ;;
  fun w =>
    match body conn w with
    | (Ok a, w') => (commit conn ;;; ret a) w'
    | (Raise e, w') => (rollback conn ;;; raise e) w'
    end.

(** [cur.execute("CREATE TABLE IF NOT EXISTS mqtt_metrics ...")]. *)
Definition execute_create (conn : nat) : M unit := fun w =>
  match store w conn with
  | ExecuteFails e | ExecuteDrops e => (Raise e, w)
  | _ => (Ok tt, log CreateTable w)
  end.

(** psycopg2 adapts [None], numbers, strings and lists of those to SQL.
    It has no adapter for a [dict] ([ProgrammingError]) and refuses a
    string that holds U+0000 ([ValueError]); the values of a tuple and
    the items of a list are adapted in order. *)
Fixpoint adapt_error (v : pyval) : option exn :=
  match v with
  | PDict _ => Some ProgrammingError
  | PStr s => if contains Ascii.zero s then Some ValueError else None
  | PList l =>
      (fix first (l : list pyval) : option exn :=
         match l with
         | [] => None
         | x :: rest =>
             match adapt_error x with
             | Some e => Some e
             | None => first rest
             end
         end) l
  | _ => None
  end.

Definition label_adapt_error (l : option string) : option exn :=
  match l with
  | Some s => adapt_error (PStr s)
  | None => None
  end.

Fixpoint first_error (es : list (option exn)) : option exn :=
  match es with
  | [] => None
  | Some e :: _ => Some e
  | None :: rest => first_error rest
  end.

(** The first value of the row that cannot be adapted; the float or
    [None] of the value column always can. *)
Definition row_adapt_error (r : row) : option exn :=
  first_error [label_adapt_error (row_namespace r);
               label_adapt_error (row_group_name r);
               label_adapt_error (row_type r);
               label_adapt_error (row_node r);
               label_adapt_error (row_device r);
               adapt_error (row_metric_name r);
               adapt_error (row_metric_alias r);
               adapt_error (row_ts r)].

Definition rows_adapt_error (rows : list row) : option exn :=
  first_error (map row_adapt_error rows).

(** [execute_values] cuts the rows in pages of [page_size=100] rows, the
    last one possibly shorter. *)
Definition page_size : nat := 100.

Fixpoint paginate_from (room : nat) (page rows : list row)
  : list (list row) :=
  match rows with
  | [] =>
      match page with
      | [] => []
      | _ => [page]
      end
  | r :: rest =>
      match room with
      | O => page :: paginate_from (pred page_size) [r] rest
      | S room' => paginate_from room' (page ++ [r]) rest
      end
  end.

Definition paginate (rows : list row) : list (list row) :=
  paginate_from page_size [] rows.

(** One page: its rows are adapted, then sent as one [INSERT]. *)
Definition execute_page (conn : nat) (page : list row) : M unit := fun w =>
  match rows_adapt_error page with
  | Some e => (Raise e, w)
  | None =>
      match store w conn with
      | ExecuteFails e | ExecuteDrops e => (Raise e, w)
      | _ => (Ok tt, {| store := store w;
                        connections := connections w;
                        pending := pending w ++ page;
                        mqtt_metrics := mqtt_metrics w;
                        trace := trace w ++ [InsertRows page] |})
      end
  end.

Fixpoint execute_pages (conn : nat) (pages : list (list row)) : M unit :=
  match pages with
  | [] => ret tt
  | page :: rest => execute_page conn page ;;; execute_pages conn rest
  end.

(** [execute_values(cur, "INSERT INTO mqtt_metrics (...) VALUES %s", rows)]. *)
Definition execute_values (conn : nat) (rows : list row) : M unit :=
  execute_pages conn (paginate rows).

(** ** create_table (subscriber.py, lines 21-47) *)

Definition failed_to_connect : exn :=
  GenericException "Failed to connect to QuestDB after multiple attempts.".

(** The body of the [try]. *)
Definition try_create_table : M unit :=
  with_connection (fun conn => execute_create conn ;;; commit conn) ;;;
  print TableReady.

(** The [while attempt < retries] loop; [None] when [fuel] iterations
    were not enough to leave it. *)
Fixpoint create_table_loop (fuel : nat) (retries delay attempt : Z)
  (w : world) : option (outcome unit * world) :=
  if attempt <? retries then
    match fuel with
    | O => None
    | S fuel' =>
        match try_create_table w with
        | (Ok _, w1) => Some (Ok tt, w1)
        | (Raise e, w1) =>
            if is_OperationalError e then
              let attempt := attempt + 1 in
              match (print (NotReady attempt retries delay) ;;;
                     sleep delay) w1 with
              | (Ok _, w2) => create_table_loop fuel' retries delay attempt w2
              | (Raise e', w2) => Some (Raise e', w2)
              end
            else Some (Raise e, w1)
        end
    end
  else Some (Raise failed_to_connect, w).

Definition create_table (retries delay : Z) (w : world)
  : option (outcome unit * world) :=
  create_table_loop (Z.to_nat retries) retries delay 0 w.

(** [def create_table(retries=10, delay=5)]. *)
Definition default_retries : Z := 10.
Definition default_delay : Z := 5.

(** ** insert_metrics (subscriber.py, lines 51-84) *)

(** [for m in metrics]: the items of a list, the characters of a string,
    the keys of a dict; nothing else from JSON is iterable. *)
Definition py_iter (v : pyval) : outcome (list pyval) :=
  match v with
  | PList l => Ok l
  | PStr s => Ok (map (fun c => PStr (String c EmptyString))
                      (list_ascii_of_string s))
  | PDict d => Ok (map (fun kv => PStr (fst kv)) d)
  | _ => Raise TypeError
  end.

Definition py_len (v : pyval) : outcome Z :=
  match v with
  | PList l => Ok (Z.of_nat (List.length l))
  | PStr s => Ok (Z.of_nat (String.length s))
  | PDict d => Ok (Z.of_nat (List.length d))
  | _ => Raise TypeError
  end.

(** [float(m.get("value")) if m.get("value") is not None else None]. *)
Definition value_field (m : pyval) : outcome (option float) :=
  obind (py_get m "value") (fun v =>
  match v with
  | PNone => Ok None
  | _ => obind (py_get m "value") (fun v' =>
         obind (py_float v') (fun f => Ok (Some f)))
  end).

(** The tuple built for one metric, its fields evaluated left to right. *)
Definition build_row (dims : dimensions) (m : pyval) : outcome row :=
  obind (py_get m "name") (fun name =>
  obind (py_get m "alias") (fun alias =>
  obind (value_field m) (fun value =>
  obind (py_get m "timestamp") (fun t =>
  obind (py_mul_1000 t) (fun ts =>
  Ok {| row_namespace := namespace dims;
        row_group_name := group dims;
        row_type := mtype dims;
        row_node := node dims;
        row_device := device dims;
        row_metric_name := name;
        row_metric_alias := alias;
        row_value := value;
        row_ts := ts |}))))).

Fixpoint build_rows (dims : dimensions) (ms : list pyval)
  : outcome (list row) :=
  match ms with
  | [] => Ok []
  | m :: rest =>
      obind (build_row dims m) (fun r =>
      obind (build_rows dims rest) (fun rs => Ok (r :: rs)))
  end.

Definition insert_metrics (topic : string) (metrics : pyval) : M unit :=
  let dims := topic_dimensions topic in
  ms <- lift (py_iter metrics) ;;
  rows <- lift (build_rows dims ms) ;;
  match rows with
  | [] => ret tt
  | _ => with_connection (fun conn =>
           execute_values conn rows ;;; commit conn)
  end.

(** ** on_message (subscriber.py, lines 91-98) *)

Record mqtt_message : Type := {
  topic : string;
  payload : string
}.

Section OnMessage.

(** [json.loads(b.decode())], the library's decoder. *)
Variable loads : string -> outcome pyval.

Definition process (msg : mqtt_message) : M unit :=
  body <- lift (loads (payload msg)) ;;
  metrics <- lift (py_get_default body "metrics" (PList [])) ;;
  insert_metrics (topic msg) metrics ;;;
  n <- lift (py_len metrics) ;;
  print (Inserted n (topic msg)).

(** Every exception class of the model derives from [Exception], so
    [except Exception] catches them all. *)
Definition on_message (msg : mqtt_message) : M unit := fun w =>
  match process msg w with
  | (Ok _, w') => (Ok tt, w')
  | (Raise e, w') => print (ErrorProcessing (topic msg) e) w'
  end.

End OnMessage.

(** ** A reader for ASCII JSON

    [json.loads(b.decode())] is the library's.  The properties below hold
    for any decoder; this one only instantiates them on concrete
    payloads.  It reads JSON as Python does (including [NaN], [Infinity]
    and [-Infinity]) when the payload is ASCII, its [\u] escapes stay
    below 256, its nesting is shallow and its integers are short: it
    refuses other bytes and escapes, which Python decodes, and has
    neither the recursion limit nor the limit on the digits of an
    integer that make Python refuse a document. *)

Definition is_json_space (c : ascii) : bool :=
  (code c =? 32) || (code c =? 9) || (code c =? 10) || (code c =? 13).

Fixpoint skip_ws (s : list ascii) : list ascii :=
  match s with
  | c :: rest => if is_json_space c then skip_ws rest else s
  | [] => []
  end.

Definition hex_value (c : ascii) : option Z :=
  let n := code c in
  if (48 <=? n) && (n <=? 57) then Some (n - 48)
  else if (65 <=? n) && (n <=? 70) then Some (n - 55)
  else if (97 <=? n) && (n <=? 102) then Some (n - 87)
  else None.

Definition escape_u (a b c d : ascii) : option ascii :=
  match hex_value a, hex_value b, hex_value c, hex_value d with
  | Some x, Some y, Some z, Some t =>
      let n := ((x * 16 + y) * 16 + z) * 16 + t in
      if n <? 256 then Some (ascii_of_N (Z.to_N n)) else None
  | _, _, _, _ => None
  end.

Definition double_quote : ascii := ascii_of_nat 34.
Definition backslash : ascii := ascii_of_nat 92.

(** The characters of a string literal after its opening quote. *)
Fixpoint scan_string (s : list ascii) : option (string * list ascii) :=
  match s with
  | [] => None
  | c :: rest =>
      if Ascii.eqb c double_quote then Some (EmptyString, rest)
      else if Ascii.eqb c backslash then
        match rest with
        | "u"%char :: h1 :: h2 :: h3 :: h4 :: rest' =>
            match escape_u h1 h2 h3 h4, scan_string rest' with
            | Some x, Some (str, tl) => Some (String x str, tl)
            | _, _ => None
            end
        | e :: rest' =>
            let plain (x : ascii) :=
              option_map (fun r => (String x (fst r), snd r))
                         (scan_string rest') in
            if Ascii.eqb e double_quote then plain double_quote
            else if Ascii.eqb e backslash then plain backslash
            else match e with
                 | "/"%char => plain "/"%char
                 | "b"%char => plain (ascii_of_nat 8)
                 | "f"%char => plain (ascii_of_nat 12)
                 | "n"%char => plain (ascii_of_nat 10)
                 | "r"%char => plain (ascii_of_nat 13)
                 | "t"%char => plain (ascii_of_nat 9)
                 | _ => None
                 end
        | [] => None
        end
      else if code c <? 32 then None
      else option_map (fun r => (String c (fst r), snd r)) (scan_string rest)
  end.

(** A number: an optional minus, then a zero or digits that do not start
    with zero, then an optional fraction and an optional exponent, each
    with at least one digit; an [int] without fraction and exponent, a
    [float] otherwise. *)
Definition scan_number (s : list ascii) : option (pyval * list ascii) :=
  let (neg, s1) :=
    match s with
    | "-"%char :: r => (true, r)
    | _ => (false, s)
    end in
  let '(ip, s2) :=
    match s1 with
    | "0"%char :: r => (["0"%char], r)
    | _ => span_digits s1
    end in
  match ip with
  | [] => None
  | _ =>
      let '(fp, s3) :=
        match s2 with
        | "."%char :: r =>
            match span_digits r with
            | ([], _) => ([], s2)
            | (ds, tl) => (ds, tl)
            end
        | _ => ([], s2)
        end in
      let '(ex, s4) :=
        match s3 with
        | c :: r =>
            if Ascii.eqb (lower c) "e" then
              let (eneg, r1) := take_sign r in
              match span_digits r1 with
              | ([], _) => (None, s3)
              | (ds, tl) =>
                  (Some (if eneg then - digits_value ds else digits_value ds),
                   tl)
              end
            else (None, s3)
        | [] => (None, s3)
        end in
      match fp, ex with
      | [], None =>
          Some (PInt (if neg then - digits_value ip else digits_value ip), s4)
      | _, _ =>
          let e := match ex with Some e => e | None => 0 end in
          Some (PFloat (decimal_to_float neg (digits_value (ip ++ fp))
                          (e - Z.of_nat (List.length fp))), s4)
      end
  end.

Fixpoint strip_prefix (p s : list ascii) : option (list ascii) :=
  match p, s with
  | [], _ => Some s
  | a :: p', b :: s' => if Ascii.eqb a b then strip_prefix p' s' else None
  | _ :: _, [] => None
  end.

Definition scan_word (word : string) (v : pyval) (s : list ascii)
  : option (pyval * list ascii) :=
  option_map (fun tl => (v, tl)) (strip_prefix (list_ascii_of_string word) s).

(** [dict(pairs)]: a repeated key keeps its first place and its last
    value. *)
Fixpoint dict_set (d : list (string * pyval)) (k : string) (v : pyval)
  : list (string * pyval) :=
  match d with
  | [] => [(k, v)]
  | (k', v') :: rest =>
      if String.eqb k' k then (k', v) :: rest
      else (k', v') :: dict_set rest k v
  end.

Fixpoint scan_value (fuel : nat) (s : list ascii)
  : option (pyval * list ascii) :=
  match fuel with
  | O => None
  | S fuel' =>
      match s with
      | [] => None
      | c :: rest =>
          if Ascii.eqb c double_quote then
            option_map (fun r => (PStr (fst r), snd r)) (scan_string rest)
          else match c with
          | "{"%char =>
              match skip_ws rest with
              | "}"%char :: tl => Some (PDict [], tl)
              | tl => scan_pairs fuel' tl []
              end
          | "["%char =>
              match skip_ws rest with
              | "]"%char :: tl => Some (PList [], tl)
              | tl => scan_items fuel' tl []
              end
          | "n"%char => scan_word "null" PNone s
          | "t"%char => scan_word "true" (PBool true) s
          | "f"%char => scan_word "false" (PBool false) s
          | _ =>
              match scan_number s with
              | Some r => Some r
              | None =>
                  match c with
                  | "N"%char => scan_word "NaN" (PFloat nan) s
                  | "I"%char => scan_word "Infinity" (PFloat infinity) s
                  | "-"%char => scan_word "-Infinity" (PFloat neg_infinity) s
                  | _ => None
                  end
              end
          end
      end
  end
with scan_items (fuel : nat) (s : list ascii) (acc : list pyval)
  : option (pyval * list ascii) :=
  match fuel with
  | O => None
  | S fuel' =>
      match scan_value fuel' s with
      | Some (v, tl) =>
          match skip_ws tl with
          | "]"%char :: tl' => Some (PList (acc ++ [v]), tl')
          | ","%char :: tl' => scan_items fuel' (skip_ws tl') (acc ++ [v])
          | _ => None
          end
      | None => None
      end
  end
with scan_pairs (fuel : nat) (s : list ascii) (acc : list (string * pyval))
  : option (pyval * list ascii) :=
  match fuel with
  | O => None
  | S fuel' =>
      match s with
      | c :: rest =>
          if Ascii.eqb c double_quote then
            match scan_string rest with
            | Some (k, tl) =>
                match skip_ws tl with
                | ":"%char :: tl1 =>
                    match scan_value fuel' (skip_ws tl1) with
                    | Some (v, tl2) =>
                        match skip_ws tl2 with
                        | "}"%char :: tl3 => Some (PDict (dict_set acc k v), tl3)
                        | ","%char :: tl3 =>
                            scan_pairs fuel' (skip_ws tl3) (dict_set acc k v)
                        | _ => None
                        end
                    | None => None
                    end
                | _ => None
                end
            | None => None
            end
          else None
      | [] => None
      end
  end.

Definition ascii_json_loads (b : string) : outcome pyval :=
  let s := list_ascii_of_string b in
  if forallb (fun c => code c <? 128) s then
    match scan_value (2 * List.length s + 2) (skip_ws s) with
    | Some (v, tl) =>
        match skip_ws tl with
        | [] => Ok v
        | _ => Raise JSONDecodeError
        end
    | None => Raise JSONDecodeError
    end
  else Raise UnicodeDecodeError.

(** Payloads are written with apostrophes for the double quotes. *)
Definition json (s : string) : string :=
  string_of_list_ascii
    (map (fun c => if Ascii.eqb c "'" then double_quote else c)
         (list_ascii_of_string s)).

(** ** get_latest_temperature (main.py, lines 62-88) *)

Module Api.

(** The exceptions of the endpoint.  FastAPI's [HTTPException] derives
    from [Exception], like asyncpg's errors and [KeyError]. *)
Inductive error : Type :=
| UndefinedTableError
| KeyError
| OtherError (name : string)
| HTTPException (status_code : Z) (d : detail)
with detail : Type :=
| NoDataFound
| TableDoesNotExist
| InternalServerError (e : error).

Inductive result : Type :=
| Returns (body : list (string * pyval))
| Raises (e : error).

(** What the pool and the query do for one request: [fetchrow] gives
    the latest record, or [None] on an empty table, or raises
    ([UndefinedTableError] when the table is missing); or no connection
    could be acquired. *)
Inductive reply : Type :=
| Latest (r : list (string * pyval))
| NoRow
| QueryRaises (e : error)
| AcquireRaises (e : error).

(** The body of the [try]. *)
Definition try_body (r : reply) : result :=
  match r with
  | AcquireRaises e => Raises e
  | QueryRaises e => Raises e
  | NoRow => Raises (HTTPException 404 NoDataFound)
  | Latest row =>
      match dict_get row "Temperatur" with
      | Some latest_temp => Returns [("Temperatur", latest_temp)]
      | None => Raises KeyError
      end
  end.

(** [except UndefinedTableError] first, then [except Exception], which
    every other exception of the body reaches. *)
Definition get_latest_temperature (r : reply) : result :=
  match try_body r with
  | Returns body => Returns body
  | Raises UndefinedTableError => Raises (HTTPException 500 TableDoesNotExist)
  | Raises e => Raises (HTTPException 500 (InternalServerError e))
  end.

(** A value FastAPI can render: its JSON encoder refuses a float that
    is NaN or infinite. *)
Fixpoint json_compliant (v : pyval) : bool :=
  match v with
  | PFloat f => negb (is_nan f || is_infinity f)
  | PList l => forallb json_compliant l
  | PDict d =>
      (fix all (d : list (string * pyval)) : bool :=
         match d with
         | [] => true
         | (_, x) :: rest => json_compliant x && all rest
         end) d
  | _ => true
  end.

(** The status the caller sees: 200 for a returned body that can be
    rendered and 500 for one that cannot, the code of an
    [HTTPException], 500 for any other exception. *)
Definition status (r : result) : Z :=
  match r with
  | Returns body => if json_compliant (PDict body) then 200 else 500
  | Raises (HTTPException code _) => code
  | Raises _ => 500
  end.

Definition is_client_error (code : Z) : bool :=
  (400 <=? code) && (code <? 500).

End Api.

(** ** Auxiliary definitions of the statements *)

(** The row of a metric [d] whose value field is [v] and whose scaled
    timestamp is [ts]. *)
Definition row_of (dims : dimensions) (d : list (string * pyval))
  (v : option float) (ts : pyval) : row :=
  {| row_namespace := namespace dims;
     row_group_name := group dims;
     row_type := mtype dims;
     row_node := node dims;
     row_device := device dims;
     row_metric_name := dict_get_or d "name" PNone;
     row_metric_alias := dict_get_or d "alias" PNone;
     row_value := v;
     row_ts := ts |}.

(** The batch of a non-empty list of rows on a connection the store
    serves: one connection, one insert, the rows committed. *)
Definition write_rows (rows : list row) : M unit :=
  with_connection (fun conn => execute_values conn rows ;;; commit conn).

(** The world once a connection was attempted. *)
Definition connected (w : world) : world :=
  {| store := store w;
     connections := S (connections w);
     pending := [];
     mqtt_metrics := mqtt_metrics w;
     trace := trace w ++ [Connect] |}.

Definition written (rows : list row) (w : world) : world :=
  {| store := store w;
     connections := S (connections w);
     pending := [];
     mqtt_metrics := mqtt_metrics w ++ rows;
     trace := trace w ++ [Connect] ++ map InsertRows (paginate rows)
                      ++ [Commit; Commit] |}.

Definition scenario_topic : string := "groupA/line1/press/nodeX/dev9".

(** The document
    [{"metrics":[{"name":"temp","alias":3,"value":21.7,"timestamp":1700000000}]}]
    as [json.loads] returns it. *)
Definition scenario_document : pyval :=
  PDict [("metrics",
          PList [PDict [("name", PStr "temp");
                        ("alias", PInt 3);
                        ("value", PFloat 21.7);
                        ("timestamp", PInt 1700000000)]])].

Definition scenario_row : row :=
  {| row_namespace := Some "groupA";
     row_group_name := Some "line1";
     row_type := Some "press";
     row_node := Some "nodeX";
     row_device := Some "dev9";
     row_metric_name := PStr "temp";
     row_metric_alias := PInt 3;
     row_value := Some 21.7%float;
     row_ts := PInt 1700000000000 |}.

(** The exception a response makes a [with] block over the connection
    raise, if any: the store's own, or the [InterfaceError] of the
    rollback when the connection was lost. *)
Definition raises (r : response) : option exn :=
  match r with
  | Healthy => None
  | ConnectFails e | ExecuteFails e | CommitFails e => Some e
  | ExecuteDrops _ | CommitDrops _ => Some InterfaceError
  end.

Definition is_sleep (e : event) : bool :=
  match e with
  | Sleep _ => true
  | _ => false
  end.

Definition count_sleeps (t : list event) : nat :=
  List.length (filter is_sleep t).

(** What one refused attempt leaves in the trace, and [n] of them in a
    row starting after [attempt] earlier ones. *)
Definition refused (retries delay attempt : Z) : list event :=
  [Connect; Printed (NotReady (attempt + 1) retries delay); Sleep delay].

Fixpoint refusals (retries delay attempt : Z) (n : nat) : list event :=
  match n with
  | O => []
  | S k => refused retries delay attempt
           ++ refusals retries delay (attempt + 1) k
  end.

(** Two worlds with the same store and the same table. *)
Definition same_store (w w' : world) : Prop :=
  store w' = store w /\ mqtt_metrics w' = mqtt_metrics w.

(** ** Worlds and messages of the examples *)

Definition fresh (s : nat -> response) : world :=
  {| store := s;
     connections := 0;
     pending := [];
     mqtt_metrics := [];
     trace := [] |}.

Definition always_healthy : nat -> response := fun _ => Healthy.

Definition unreachable : nat -> response :=
  fun _ => ConnectFails OperationalError.

(** Refuses the first connection, then fails the statement with an error
    that is not a connection failure. *)
Definition refuses_then_rejects : nat -> response :=
  fun n =>
    match n with
    | O => ConnectFails OperationalError
    | S _ => ExecuteFails ProgrammingError
    end.

Definition scenario_message : mqtt_message :=
  {| topic := scenario_topic;
     payload := json "{'metrics':[{'name':'temp','alias':3,'value':21.7,'timestamp':1700000000}]}" |}.

Definition no_metrics_message : mqtt_message :=
  {| topic := "spBv1.0/plant/NBIRTH/edge1";
     payload := json "{'timestamp':1700000000,'seq':0}" |}.

Definition good_metric : list (string * pyval) :=
  [("name", PStr "temp"); ("alias", PInt 3); ("value", PFloat 21.7);
   ("timestamp", PInt 1700000000)].

Definition bad_metric : list (string * pyval) :=
  [("name", PStr "rpm"); ("alias", PInt 4); ("value", PStr "abc");
   ("timestamp", PInt 1700000000)].

(** Two metrics: the first is well formed, the value of the second is
    not a number. *)
Definition bad_value_message : mqtt_message :=
  {| topic := scenario_topic;
     payload := json "{'metrics':[{'name':'temp','alias':3,'value':21.7,'timestamp':1700000000},{'name':'rpm','alias':4,'value':'abc','timestamp':1700000000}]}" |}.

(** ** on_message as the client calls it

    [on_message] above takes the topic as a string.  In a message of the
    client, [msg.topic] is a property that decodes the bytes of the topic
    at each access: in the call of [insert_metrics], in the print that
    follows it, and in the print of the [except] clause. *)

Record raw_message : Type := {
  topic_bytes : string;
  payload_bytes : string
}.

Section OnRawMessage.

(** [json.loads(b.decode())] and [b.decode("utf-8")], the library's. *)
Variable loads : string -> outcome pyval.
Variable decode : string -> outcome string.

Definition process_raw (msg : raw_message) : M unit :=
  body <- lift (loads (payload_bytes msg)) ;;
  metrics <- lift (py_get_default body "metrics" (PList [])) ;;
  t <- lift (decode (topic_bytes msg)) ;;
  insert_metrics t metrics ;;;
  n <- lift (py_len metrics) ;;
  t' <- lift (decode (topic_bytes msg)) ;;
  print (Inserted n t').

Definition on_message_raw (msg : raw_message) : M unit := fun w =>
  match process_raw msg w with
  | (Ok _, w') => (Ok tt, w')
  | (Raise e, w') =>
      (t <- lift (decode (topic_bytes msg)) ;;
       print (ErrorProcessing t e)) w'
  end.

End OnRawMessage.

(** A decoder for the examples: it decodes ASCII and refuses every byte
    from 128 up, where UTF-8 also has well-formed sequences. *)
Definition ascii_decode (b : string) : outcome string :=
  if forallb (fun c => code c <? 128) (list_ascii_of_string b)
  then Ok b else Raise UnicodeDecodeError.

(** ** Further definitions of the statements *)

(** [client.loop_forever()] hands the received messages to [on_message]
    one at a time, in the order received. *)
Fixpoint handle_all (loads : string -> outcome pyval)
  (msgs : list mqtt_message) : M unit :=
  match msgs with
  | [] => ret tt
  | msg :: rest => on_message loads msg ;;; handle_all loads rest
  end.

(** From [w] to [w'] the store answers the same, at most [n] connections
    were attempted and the table only gained rows at its end. *)
Definition grows (n : nat) (w w' : world) : Prop :=
  store w' = store w /\
  (connections w <= connections w' <= connections w + n)%nat /\
  exists added, mqtt_metrics w' = mqtt_metrics w ++ added.

(** Further messages and stores of the examples. *)
Definition second_metric : list (string * pyval) :=
  [("name", PStr "rpm"); ("alias", PInt 4); ("value", PStr "12.5");
   ("timestamp", PInt 1700000001)].

Definition second_row : row :=
  {| row_namespace := Some "groupA";
     row_group_name := Some "line1";
     row_type := Some "press";
     row_node := Some "nodeX";
     row_device := Some "dev9";
     row_metric_name := PStr "rpm";
     row_metric_alias := PInt 4;
     row_value := Some 12.5%float;
     row_ts := PInt 1700000001000 |}.

Definition two_metrics_message : mqtt_message :=
  {| topic := scenario_topic;
     payload := json "{'metrics':[{'name':'temp','alias':3,'value':21.7,'timestamp':1700000000},{'name':'rpm','alias':4,'value':'12.5','timestamp':1700000001}]}" |}.

Definition string_metrics_message : mqtt_message :=
  {| topic := scenario_topic;
     payload := json "{'metrics':'temp'}" |}.

Definition commit_fails : nat -> response :=
  fun _ => CommitFails OperationalError.

(** Refuses the first two connections, then serves. *)
Definition refuses_twice : nat -> response :=
  fun n =>
    match n with
    | O | S O => ConnectFails OperationalError
    | _ => Healthy
    end.

(** [w] with its trace replaced by [t]. *)
Definition retrace (t : list event) (w : world) : world :=
  {| store := store w;
     connections := connections w;
     pending := pending w;
     mqtt_metrics := mqtt_metrics w;
     trace := t |}.

(** A computation that only appends to the trace and never reads it: on
    a world with another trace it gives the same outcome and the same
    world, with the same events appended. *)
Definition oblivious {A} (m : M A) : Prop :=
  forall w, exists suffix,
    trace (snd (m w)) = trace w ++ suffix /\
    forall t, m (retrace t w) = (fst (m w), retrace (t ++ suffix) (snd (m w))).

(** The five label columns of a row. *)
Definition row_labels (r : row) : list (option string) :=
  [row_namespace r; row_group_name r; row_type r; row_node r; row_device r].

(** * Properties *)

(** ** The library functions on examples *)

Example split_keeps_empty_parts :
  split slash "a//b/" = ["a"; ""; "b"; ""] /\ split slash "" = [""].
Proof. split; reflexivity. Qed.

Example float_of_str_accepts :
  py_float (PStr " -1_0.25E+1  ") = Ok (-102.5)%float /\
  py_float (PStr ".5") = Ok 0.5%float /\
  py_float (PStr "1e309") = Ok infinity /\
  py_float (PStr "5e-324") = Ok 5e-324%float /\
  py_float (PStr "-Infinity") = Ok neg_infinity.
Proof. vm_compute. repeat split. Qed.

Example float_of_str_rejects :
  py_float (PStr "abc") = Raise ValueError /\
  py_float (PStr "1__0") = Raise ValueError /\
  py_float (PStr "1e") = Raise ValueError /\
  py_float (PStr "") = Raise ValueError /\
  py_float (PStr "0x10") = Raise ValueError.
Proof. vm_compute. repeat split. Qed.

Example float_of_int_rounds_or_overflows :
  py_float (PInt 9007199254740993) = Ok 9007199254740992%float /\
  py_float (PInt (2 ^ 1024 - 2 ^ 970 - 1)) = Ok 1.7976931348623157e308%float /\
  py_float (PInt (2 ^ 1024 - 2 ^ 970)) = Raise OverflowError.
Proof. vm_compute. repeat split. Qed.

Example float_product_is_rounded :
  py_mul_1000 (PFloat 1.001) = Ok (PFloat 1000.9999999999999) /\
  py_mul_1000 (PFloat 1700000000.5) = Ok (PFloat 1700000000500).
Proof. vm_compute. repeat split. Qed.

Example ascii_json_loads_reads :
  ascii_json_loads (json " {'a': [1, -2.5e3, true, null, 'x\ny'], 'b': {}, 'a': 7} ")
  = Ok (PDict [("a", PInt 7); ("b", PDict [])]) /\
  ascii_json_loads (json "[1,]") = Raise JSONDecodeError /\
  ascii_json_loads (json "01") = Raise JSONDecodeError.
Proof. vm_compute. repeat split. Qed.

(** ** Topic decoder *)

Lemma split_not_nil (sep : ascii) (s : string) : split sep s <> [].
Proof.
  destruct s as [|c rest]; simpl; [discriminate|].
  destruct (Ascii.eqb c sep); [discriminate|].
  destruct (split sep rest); discriminate.
Qed.

Lemma split_free (sep : ascii) (p : string) :
  contains sep p = false -> split sep p = [p].
Proof.
  induction p as [|c p IH]; simpl; intros H; [reflexivity|].
  apply orb_false_iff in H as [Hc Hp].
  rewrite Hc, (IH Hp). reflexivity.
Qed.

Lemma split_app (sep : ascii) (p t : string) :
  contains sep p = false ->
  split sep (p ++ String sep t) = p :: split sep t.
Proof.
  induction p as [|c p IH]; simpl; intros H.
  - rewrite Ascii.eqb_refl. reflexivity.
  - apply orb_false_iff in H as [Hc Hp].
    rewrite Hc, (IH Hp). reflexivity.
Qed.

Lemma split_join (sep : ascii) (segs : list string) :
  segs <> [] ->
  Forall (fun s => contains sep s = false) segs ->
  split sep (join sep segs) = segs.
Proof.
  induction segs as [|p ps IH]; intros Hne Hfree; [congruence|].
  inversion Hfree as [|? ? Hp Hps]; subst.
  destruct ps as [|q qs].
  - simpl. apply split_free, Hp.
  - change (join sep (p :: q :: qs))
      with (p ++ String sep (join sep (q :: qs)))%string.
    rewrite split_app by exact Hp.
    rewrite IH; [reflexivity|discriminate|assumption].
Qed.

Lemma join_split (sep : ascii) (s : string) : join sep (split sep s) = s.
Proof.
  induction s as [|c rest IH]; [reflexivity|].
  simpl. destruct (Ascii.eqb_spec c sep) as [->|Hne].
  - pose proof (split_not_nil sep rest) as Hnil.
    destruct (split sep rest) as [|q qs]; [congruence|].
    change (join sep (EmptyString :: q :: qs))
      with (String sep (join sep (q :: qs))).
    rewrite IH. reflexivity.
  - pose proof (split_not_nil sep rest) as Hnil.
    destruct (split sep rest) as [|q qs]; [congruence|].
    rewrite <- IH. destruct qs; reflexivity.
Qed.

Lemma split_parts_free (sep : ascii) (s : string) :
  Forall (fun p => contains sep p = false) (split sep s).
Proof.
  induction s as [|c rest IH]; simpl.
  - constructor; [reflexivity|constructor].
  - destruct (Ascii.eqb c sep) eqn:Hc.
    + constructor; [reflexivity|assumption].
    + destruct (split sep rest) as [|q qs]; simpl.
      * constructor; [simpl; rewrite Hc; reflexivity|constructor].
      * inversion IH; subst. constructor; [|assumption].
        simpl. rewrite Hc. assumption.
Qed.

Lemma part_nth_error (parts : list string) (i : nat) :
  part parts i = nth_error parts i.
Proof.
  unfold part. destruct (Z.gtb_spec (Z.of_nat (List.length parts)) (Z.of_nat i));
    [reflexivity|].
  symmetry. apply nth_error_None. lia.
Qed.

Lemma labels_of_parts (t : string) :
  labels (topic_dimensions t)
  = map (nth_error (split slash t)) [0; 1; 2; 3; 4]%nat.
Proof.
  unfold labels, topic_dimensions. simpl.
  rewrite !part_nth_error. reflexivity.
Qed.

(** C2. A topic made of the slash-free segments [segs] decodes to the
    first five segments, in order, as namespace, group, type, node and
    device; with fewer than five segments the labels past the last
    segment are [None].  The decoder is a total function: it cannot
    raise. *)
Theorem topic_decoder_positional (segs : list string) :
  segs <> [] ->
  Forall (fun s => contains slash s = false) segs ->
  labels (topic_dimensions (join slash segs))
  = map Some (firstn 5 segs) ++ repeat None (5 - List.length segs)%nat.
Proof.
  intros Hne Hfree.
  rewrite labels_of_parts, split_join by assumption.
  destruct segs as [|a [|b [|c [|d [|e rest]]]]]; reflexivity.
Qed.

Lemma topic_decoder_positional_witness :
  labels (topic_dimensions "spBv1.0/plant/DDATA")
  = [Some "spBv1.0"; Some "plant"; Some "DDATA"; None; None].
Proof.
  apply (topic_decoder_positional ["spBv1.0"; "plant"; "DDATA"]).
  - discriminate.
  - repeat constructor.
Defined.

(** ** Rows *)

Lemma build_row_dict (dims : dimensions) (d : list (string * pyval)) :
  build_row dims (PDict d)
  = obind (value_field (PDict d)) (fun v =>
    obind (py_mul_1000 (dict_get_or d "timestamp" PNone)) (fun ts =>
    Ok (row_of dims d v ts))).
Proof. reflexivity. Qed.

Lemma value_field_dict (d : list (string * pyval)) :
  value_field (PDict d)
  = match dict_get_or d "value" PNone with
    | PNone => Ok None
    | v => obind (py_float v) (fun f => Ok (Some f))
    end.
Proof.
  unfold value_field, py_get, py_get_default, obind.
  destruct (dict_get_or d "value" PNone); reflexivity.
Qed.

(** C3. A metric whose [timestamp] is the integer [t] gets the row whose
    [ts] is the integer [t * 1000], computed on unbounded integers; a
    metric whose [timestamp] is the float [t] gets the binary64 product
    of [t] and 1000.  The row exists as soon as the value field coerces. *)
Theorem ts_is_timestamp_times_1000 (dims : dimensions)
  (d : list (string * pyval)) (v : option float) :
  value_field (PDict d) = Ok v ->
  (forall t : Z,
     dict_get d "timestamp" = Some (PInt t) ->
     build_row dims (PDict d) = Ok (row_of dims d v (PInt (t * 1000)))) /\
  (forall t : float,
     dict_get d "timestamp" = Some (PFloat t) ->
     build_row dims (PDict d) = Ok (row_of dims d v (PFloat (t * 1000)%float))).
Proof.
  intros Hv. split; intros t Ht; rewrite build_row_dict, Hv;
    unfold dict_get_or; rewrite Ht; reflexivity.
Qed.

Lemma ts_is_timestamp_times_1000_witness :
  build_row (topic_dimensions "a/b")
    (PDict [("value", PInt 2); ("timestamp", PInt 1700000000)])
  = Ok (row_of (topic_dimensions "a/b")
          [("value", PInt 2); ("timestamp", PInt 1700000000)]
          (Some 2%float) (PInt 1700000000000)).
Proof.
  apply (proj1 (ts_is_timestamp_times_1000 (topic_dimensions "a/b")
                  [("value", PInt 2); ("timestamp", PInt 1700000000)]
                  (Some 2%float) eq_refl) 1700000000).
  reflexivity.
Defined.

(** C6. For a metric whose timestamp scales to [ts]: when [value] is
    missing or null the row's value is null, although [float(None)] would
    have raised; when [value] is [x] and [float(x)] is [f] the row's value
    is [f]; and [float("12.5")] is 12.5. *)
Theorem value_null_or_coerced (dims : dimensions)
  (d : list (string * pyval)) (ts : pyval) :
  py_mul_1000 (dict_get_or d "timestamp" PNone) = Ok ts ->
  (dict_get d "value" = None \/ dict_get d "value" = Some PNone ->
   build_row dims (PDict d) = Ok (row_of dims d None ts)) /\
  py_float PNone = Raise TypeError /\
  (forall x f,
     dict_get d "value" = Some x -> py_float x = Ok f ->
     build_row dims (PDict d) = Ok (row_of dims d (Some f) ts)) /\
  py_float (PStr "12.5") = Ok 12.5%float.
Proof.
  intros Hts. repeat split.
  - intros Hv. rewrite build_row_dict, value_field_dict.
    unfold dict_get_or at 1. destruct Hv as [-> | ->]; simpl; rewrite Hts;
      reflexivity.
  - intros x f Hx Hf. rewrite build_row_dict, value_field_dict.
    unfold dict_get_or at 1. rewrite Hx.
    destruct x; try discriminate; rewrite Hf; simpl; rewrite Hts;
      reflexivity.
Qed.

Lemma value_null_or_coerced_witness :
  build_row (topic_dimensions "a/b/c/d/e")
    (PDict [("name", PStr "rpm"); ("value", PStr "12.5"); ("timestamp", PInt 7)])
  = Ok (row_of (topic_dimensions "a/b/c/d/e")
          [("name", PStr "rpm"); ("value", PStr "12.5"); ("timestamp", PInt 7)]
          (Some 12.5%float) (PInt 7000)).
Proof.
  destruct (value_null_or_coerced (topic_dimensions "a/b/c/d/e")
              [("name", PStr "rpm"); ("value", PStr "12.5");
               ("timestamp", PInt 7)]
              (PInt 7000) eq_refl) as (_ & _ & Hcoerced & _).
  apply (Hcoerced (PStr "12.5")); reflexivity.
Defined.

(** ** Batch writer *)

(** C7. Given metrics that hold no item (the empty list, and likewise
    an empty string or object) the writer builds no row and returns
    without touching the world: no connection is attempted, nothing is
    inserted, nothing is logged. *)
Theorem insert_metrics_empty_is_noop (topic : string) (metrics : pyval)
  (w : world) :
  py_iter metrics = Ok [] ->
  insert_metrics topic metrics w = (Ok tt, w).
Proof.
  intros Hempty. unfold insert_metrics, bind, lift.
  rewrite Hempty. reflexivity.
Qed.

Lemma insert_metrics_empty_is_noop_witness :
  insert_metrics "spBv1.0/plant/NDATA/edge1" (PList []) (fresh unreachable)
  = (Ok tt, fresh unreachable).
Proof.
  apply (insert_metrics_empty_is_noop "spBv1.0/plant/NDATA/edge1" (PList [])
           (fresh unreachable)).
  reflexivity.
Defined.

(** Pages. *)
Lemma first_error_app (a b : list (option exn)) :
  first_error (a ++ b)
  = match first_error a with
    | Some e => Some e
    | None => first_error b
    end.
Proof.
  induction a as [|[e|] a IH]; simpl; [reflexivity|reflexivity|exact IH].
Qed.

Lemma rows_adapt_error_app (a b : list row) :
  rows_adapt_error (a ++ b)
  = match rows_adapt_error a with
    | Some e => Some e
    | None => rows_adapt_error b
    end.
Proof. unfold rows_adapt_error. rewrite map_app. apply first_error_app. Qed.

Lemma paginate_from_concat (rows : list row) :
  forall room page, List.concat (paginate_from room page rows) = page ++ rows.
Proof.
  induction rows as [|r rest IH]; intros room page; simpl.
  - destruct page; simpl; rewrite ?app_nil_r; reflexivity.
  - destruct room as [|room]; simpl; rewrite IH.
    + reflexivity.
    + rewrite <- app_assoc. reflexivity.
Qed.

Lemma paginate_concat (rows : list row) : List.concat (paginate rows) = rows.
Proof. apply paginate_from_concat. Qed.

Lemma paginate_from_page_size (rows : list row) :
  forall room page,
    (List.length page + room = page_size)%nat ->
    Forall (fun p => (List.length p <= page_size)%nat)
           (paginate_from room page rows).
Proof.
  induction rows as [|r rest IH]; intros room page Hroom; simpl.
  - destruct page as [|r0 page]; constructor; [|constructor].
    simpl List.length in *. lia.
  - destruct room as [|room].
    + constructor; [lia|]. apply IH. reflexivity.
    + apply IH. rewrite length_app. simpl List.length. lia.
Qed.

Lemma paginate_page_size (rows : list row) :
  Forall (fun p => (List.length p <= page_size)%nat) (paginate rows).
Proof. apply paginate_from_page_size. reflexivity. Qed.

Lemma pages_adapt (pages : list (list row)) :
  rows_adapt_error (List.concat pages) = None ->
  Forall (fun page => rows_adapt_error page = None) pages.
Proof.
  induction pages as [|page rest IH]; intros H; constructor;
    simpl in H; rewrite rows_adapt_error_app in H;
    destruct (rows_adapt_error page); try discriminate; auto.
Qed.

(** The pages of a batch, whatever the store answers: nothing but the
    pending rows and the trace changes, and when all pages went through
    the pending rows are those of the pages. *)
Lemma execute_pages_effect (conn : nat) (pages : list (list row)) :
  forall w,
    store (snd (execute_pages conn pages w)) = store w /\
    connections (snd (execute_pages conn pages w)) = connections w /\
    mqtt_metrics (snd (execute_pages conn pages w)) = mqtt_metrics w /\
    (fst (execute_pages conn pages w) = Ok tt ->
     pending (snd (execute_pages conn pages w))
     = pending w ++ List.concat pages /\
     trace (snd (execute_pages conn pages w))
     = trace w ++ map InsertRows pages).
Proof.
  induction pages as [|page rest IH]; intros w.
  - cbn. rewrite !app_nil_r. repeat split.
  - cbn [execute_pages]. unfold bind, execute_page.
    destruct (rows_adapt_error page); [cbn; repeat split; discriminate|].
    destruct (store w conn) eqn:Hstore;
      try (cbn; repeat split; discriminate);
      match goal with
      | |- context [execute_pages conn rest ?w1] =>
          destruct (IH w1) as (Hs & Hc & Hm & Hok);
          cbn [store connections mqtt_metrics pending trace] in Hs, Hc, Hm, Hok;
          repeat split; try assumption;
          destruct (Hok ltac:(assumption)) as [Hp Ht];
          [rewrite Hp | rewrite Ht]; cbn; rewrite <- app_assoc; reflexivity
      end.
Qed.

Lemma execute_pages_served (conn : nat) (pages : list (list row)) :
  forall w,
    Forall (fun page => rows_adapt_error page = None) pages ->
    (forall e, store w conn <> ExecuteFails e) ->
    (forall e, store w conn <> ExecuteDrops e) ->
    fst (execute_pages conn pages w) = Ok tt.
Proof.
  induction pages as [|page rest IH]; intros w Hadapt Hf Hd; [reflexivity|].
  inversion Hadapt as [|? ? Hpage Hrest]; subst.
  cbn [execute_pages]. unfold bind, execute_page. rewrite Hpage.
  destruct (store w conn) eqn:Hstore;
    try (exfalso; eapply Hf; reflexivity);
    try (exfalso; eapply Hd; reflexivity);
    (apply IH; [exact Hrest | cbn; rewrite Hstore; discriminate
                | cbn; rewrite Hstore; discriminate]).
Qed.

Lemma execute_pages_raises (conn : nat) (page : list row)
  (rest : list (list row)) (e : exn) (w : world) :
  rows_adapt_error page = None ->
  store w conn = ExecuteFails e \/ store w conn = ExecuteDrops e ->
  execute_pages conn (page :: rest) w = (Raise e, w).
Proof.
  intros Hpage Hstore. cbn [execute_pages]. unfold bind, execute_page.
  rewrite Hpage. destruct Hstore as [-> | ->]; reflexivity.
Qed.

Lemma paginate_not_nil (r : row) (rs : list row) :
  exists page rest, paginate (r :: rs) = page :: rest.
Proof.
  pose proof (paginate_concat (r :: rs)) as H.
  destruct (paginate (r :: rs)) as [|page rest]; [discriminate|].
  exists page, rest. reflexivity.
Qed.

Lemma with_connection_unfold {A} (body : nat -> M A) (w : world) :
  with_connection body w
  = match store w (connections w) with
    | ConnectFails e => (Raise e, connected w)
    | _ =>
        match body (connections w) (connected w) with
        | (Ok a, w') => (commit (connections w) ;;; ret a) w'
        | (Raise e, w') => (rollback (connections w) ;;; raise e) w'
        end
    end.
Proof.
  unfold with_connection, bind, connect, connected.
  destruct (store w (connections w)); reflexivity.
Qed.

(** What a batch does to the store, whatever the store answers. *)
Lemma write_rows_outcome (rows : list row) (w : world) :
  store (snd (write_rows rows w)) = store w /\
  connections (snd (write_rows rows w)) = S (connections w) /\
  ((fst (write_rows rows w) = Ok tt /\
    mqtt_metrics (snd (write_rows rows w)) = mqtt_metrics w ++ rows) \/
   (exists e, fst (write_rows rows w) = Raise e /\
    mqtt_metrics (snd (write_rows rows w)) = mqtt_metrics w)).
Proof.
  unfold write_rows. rewrite with_connection_unfold.
  destruct (execute_pages_effect (connections w) (paginate rows)
              (connected w)) as (Hs & Hc & Hm & Hok).
  unfold execute_values, bind, commit, rollback, raise, ret. cbv beta.
  destruct (execute_pages (connections w) (paginate rows) (connected w))
    as [[[]|e1] w1]; cbn [fst snd] in Hs, Hc, Hm, Hok;
    cbn [store connections mqtt_metrics pending trace connected]
      in Hs, Hc, Hm, Hok.
  - destruct (Hok eq_refl) as [Hp _]. rewrite paginate_concat in Hp.
    cbn in Hp. rewrite !Hs.
    destruct (store w (connections w)) as [|e0|e0|e0|e0|e0] eqn:Hstore; cbn;
      rewrite ?Hs, ?Hstore; cbn; repeat split; try congruence;
      first [ left; split; [reflexivity|];
              rewrite Hp, Hm, ?app_nil_r; reflexivity
            | right; eexists; split; [reflexivity|]; congruence ].
  - rewrite !Hs.
    destruct (store w (connections w)) as [|e0|e0|e0|e0|e0] eqn:Hstore; cbn;
      repeat split; try congruence;
      (right; eexists; split; [reflexivity|]; congruence).
Qed.

(** With at least one row the writer does go to the store. *)
Lemma write_rows_connects (rows : list row) (w : world) :
  connections (snd (write_rows rows w)) = S (connections w).
Proof. apply write_rows_outcome. Qed.

Lemma write_rows_healthy (rows : list row) (w : world) :
  rows_adapt_error rows = None ->
  store w (connections w) = Healthy ->
  write_rows rows w = (Ok tt, written rows w).
Proof.
  intros Hadapt Hstore.
  unfold write_rows. rewrite with_connection_unfold, Hstore.
  pose proof (execute_pages_effect (connections w) (paginate rows)
                (connected w)) as (Hs & Hc & Hm & Hok).
  pose proof (execute_pages_served (connections w) (paginate rows)
                (connected w)) as Hserved.
  unfold execute_values, bind. cbv beta.
  destruct (execute_pages (connections w) (paginate rows) (connected w))
    as [o w1]. cbn [fst snd] in Hs, Hc, Hm, Hok, Hserved.
  rewrite Hserved.
  2:{ apply pages_adapt. rewrite paginate_concat. exact Hadapt. }
  2:{ intros e. cbn. rewrite Hstore. discriminate. }
  2:{ intros e. cbn. rewrite Hstore. discriminate. }
  rewrite Hserved in Hok.
  2:{ apply pages_adapt. rewrite paginate_concat. exact Hadapt. }
  2:{ intros e. cbn. rewrite Hstore. discriminate. }
  2:{ intros e. cbn. rewrite Hstore. discriminate. }
  destruct (Hok eq_refl) as [Hp Ht]. rewrite paginate_concat in Hp.
  cbn [store connections mqtt_metrics pending trace connected]
    in Hs, Hc, Hm, Hp, Ht.
  destruct w1 as [st1 c1 p1 m1 t1]. cbn in Hs, Hc, Hm, Hp, Ht. subst.
  unfold commit, ret, written. cbn. rewrite Hstore. cbn.
  rewrite Hstore. cbn.
  rewrite ?app_nil_r, <- ?app_assoc. reflexivity.
Qed.

Lemma insert_metrics_rows (t : string) (ms : list pyval) (r : row)
  (rs : list row) (w : world) :
  build_rows (topic_dimensions t) ms = Ok (r :: rs) ->
  insert_metrics t (PList ms) w = write_rows (r :: rs) w.
Proof.
  intros Hrows. unfold insert_metrics, bind, lift. cbn. rewrite Hrows.
  reflexivity.
Qed.

Lemma insert_metrics_raises (t : string) (ms : list pyval) (e : exn)
  (w : world) :
  build_rows (topic_dimensions t) ms = Raise e ->
  insert_metrics t (PList ms) w = (Raise e, w).
Proof.
  intros Hrows. unfold insert_metrics, bind, lift. cbn. rewrite Hrows.
  reflexivity.
Qed.

(** ** Message handler *)

Section Handler.

Variable loads : string -> outcome pyval.

(** The handler on a document that is an object whose metrics are the
    list [ms]. *)
Lemma on_message_metrics (msg : mqtt_message) (d : list (string * pyval))
  (ms : list pyval) (w : world) :
  loads (payload msg) = Ok (PDict d) ->
  dict_get_or d "metrics" (PList []) = PList ms ->
  on_message loads msg w
  = match insert_metrics (topic msg) (PList ms) w with
    | (Ok _, w') =>
        (Ok tt,
         log (Printed (Inserted (Z.of_nat (List.length ms)) (topic msg))) w')
    | (Raise e, w') =>
        (Ok tt, log (Printed (ErrorProcessing (topic msg) e)) w')
    end.
Proof.
  intros Hloads Hms.
  unfold on_message, process, bind, lift. rewrite Hloads.
  cbn [py_get_default]. rewrite Hms.
  destruct (insert_metrics (topic msg) (PList ms) w) as [[[]|e] w'];
    reflexivity.
Qed.

(** C1. The scenario message, handled while the store serves the next
    connection, adds exactly [scenario_row] to the table, over one
    connection, and reports one inserted metric. *)
Theorem scenario_stores_one_row (body : string) (w : world) :
  loads body = Ok scenario_document ->
  store w (connections w) = Healthy ->
  on_message loads {| topic := scenario_topic; payload := body |} w
  = (Ok tt,
     {| store := store w;
        connections := S (connections w);
        pending := [];
        mqtt_metrics := mqtt_metrics w ++ [scenario_row];
        trace := trace w ++ [Connect; InsertRows [scenario_row]; Commit;
                             Commit; Printed (Inserted 1 scenario_topic)] |}).
Proof.
  intros Hloads Hstore.
  erewrite on_message_metrics by (exact Hloads || reflexivity).
  cbn [topic].
  rewrite (insert_metrics_rows scenario_topic _ scenario_row [] w)
    by reflexivity.
  rewrite write_rows_healthy by (reflexivity || assumption).
  unfold log, written. cbn. rewrite <- app_assoc. reflexivity.
Qed.

(** A document that is not an object has no [get]: the handler reports
    the [AttributeError] and writes nothing. *)
Lemma non_object_document_is_reported (msg : mqtt_message) (l : list pyval)
  (w : world) :
  loads (payload msg) = Ok (PList l) ->
  on_message loads msg w
  = (Ok tt, log (Printed (ErrorProcessing (topic msg) AttributeError)) w).
Proof.
  intros Hloads. unfold on_message, process, bind, lift. rewrite Hloads.
  reflexivity.
Qed.

(** C5. A decoded document that is an object without a [metrics] key
    gives the empty list of metrics, and the message is handled without
    an error: nothing is written and zero inserted metrics are reported. *)
Theorem missing_metrics_is_empty (msg : mqtt_message)
  (d : list (string * pyval)) (w : world) :
  loads (payload msg) = Ok (PDict d) ->
  dict_get d "metrics" = None ->
  py_get_default (PDict d) "metrics" (PList []) = Ok (PList []) /\
  on_message loads msg w
  = (Ok tt, log (Printed (Inserted 0 (topic msg))) w).
Proof.
  intros Hloads Hmiss.
  assert (Hms : dict_get_or d "metrics" (PList []) = PList []).
  { unfold dict_get_or. rewrite Hmiss. reflexivity. }
  split.
  - cbn. rewrite Hms. reflexivity.
  - rewrite (on_message_metrics msg d [] w Hloads Hms). reflexivity.
Qed.

(** One metric that fails to build makes the whole list fail. *)
Lemma build_rows_raises (dims : dimensions) (ms : list pyval) (m : pyval)
  (e0 : exn) :
  In m ms -> build_row dims m = Raise e0 ->
  exists e, build_rows dims ms = Raise e.
Proof.
  induction ms as [|a rest IH]; intros Hin Hm; [contradiction|].
  simpl. destruct (build_row dims a) as [r|e] eqn:Ha.
  - destruct Hin as [-> | Hin]; [congruence|].
    destruct (IH Hin Hm) as [e He]. exists e. simpl. rewrite He.
    reflexivity.
  - exists e. reflexivity.
Qed.

(** C4, as the code has it.  When some metric of the message carries a
    value that [float] rejects, the handler catches the error, prints it
    with the topic and returns; the world is otherwise untouched, so no
    metric of that message is inserted and no connection is opened. *)
Theorem failed_coercion_rejects_message (msg : mqtt_message)
  (d m : list (string * pyval)) (ms : list pyval) (x : pyval) (e0 : exn)
  (w : world) :
  loads (payload msg) = Ok (PDict d) ->
  dict_get d "metrics" = Some (PList ms) ->
  In (PDict m) ms ->
  dict_get m "value" = Some x -> x <> PNone -> py_float x = Raise e0 ->
  exists e,
    on_message loads msg w
    = (Ok tt, log (Printed (ErrorProcessing (topic msg) e)) w).
Proof.
  intros Hloads Hms Hin Hx Hnone Hfloat.
  assert (Hrow : build_row (topic_dimensions (topic msg)) (PDict m)
                 = Raise e0).
  { rewrite build_row_dict, value_field_dict. unfold dict_get_or.
    rewrite Hx. destruct x; try congruence; rewrite Hfloat; reflexivity. }
  destruct (build_rows_raises _ _ _ _ Hin Hrow) as [e He].
  exists e.
  rewrite (on_message_metrics msg d ms w Hloads)
    by (unfold dict_get_or; rewrite Hms; reflexivity).
  rewrite (insert_metrics_raises _ _ _ w He). reflexivity.
Qed.

End Handler.

Lemma scenario_stores_one_row_witness :
  on_message ascii_json_loads scenario_message (fresh always_healthy)
  = (Ok tt,
     {| store := always_healthy;
        connections := 1;
        pending := [];
        mqtt_metrics := [scenario_row];
        trace := [Connect; InsertRows [scenario_row]; Commit; Commit;
                  Printed (Inserted 1 scenario_topic)] |}).
Proof.
  apply (scenario_stores_one_row ascii_json_loads
           (payload scenario_message) (fresh always_healthy)).
  - vm_compute. reflexivity.
  - reflexivity.
Defined.

Lemma missing_metrics_is_empty_witness :
  py_get_default
    (PDict [("timestamp", PInt 1700000000); ("seq", PInt 0)])
    "metrics" (PList [])
  = Ok (PList []) /\
  on_message ascii_json_loads no_metrics_message (fresh always_healthy)
  = (Ok tt,
     log (Printed (Inserted 0 (topic no_metrics_message)))
         (fresh always_healthy)).
Proof.
  apply (missing_metrics_is_empty ascii_json_loads no_metrics_message
           [("timestamp", PInt 1700000000); ("seq", PInt 0)]
           (fresh always_healthy)).
  - vm_compute. reflexivity.
  - reflexivity.
Defined.

(** C4, as stated, fails: the first metric of [bad_value_message] is well
    formed and is stored when it is sent alone, yet with a sibling whose
    value is ["abc"] the handler stores nothing and opens no connection. *)
Lemma sibling_of_bad_value_not_inserted :
  py_float (PStr "abc") = Raise ValueError /\
  mqtt_metrics
    (snd (on_message ascii_json_loads scenario_message
            (fresh always_healthy)))
  = [scenario_row] /\
  on_message ascii_json_loads bad_value_message (fresh always_healthy)
  = (Ok tt,
     {| store := always_healthy;
        connections := 0;
        pending := [];
        mqtt_metrics := [];
        trace := [Printed (ErrorProcessing scenario_topic ValueError)] |}).
Proof. vm_compute. repeat split. Qed.

Lemma failed_coercion_rejects_message_witness :
  exists e,
    on_message ascii_json_loads bad_value_message (fresh always_healthy)
    = (Ok tt,
       log (Printed (ErrorProcessing (topic bad_value_message) e))
           (fresh always_healthy)).
Proof.
  apply (failed_coercion_rejects_message ascii_json_loads bad_value_message
           [("metrics", PList [PDict good_metric; PDict bad_metric])]
           bad_metric [PDict good_metric; PDict bad_metric]
           (PStr "abc") ValueError (fresh always_healthy)).
  - vm_compute. reflexivity.
  - reflexivity.
  - simpl. right. left. reflexivity.
  - reflexivity.
  - discriminate.
  - vm_compute. reflexivity.
Defined.

(** ** Schema initializer *)

Lemma count_sleeps_app (t u : list event) :
  count_sleeps (t ++ u) = (count_sleeps t + count_sleeps u)%nat.
Proof. unfold count_sleeps. rewrite filter_app, length_app. reflexivity. Qed.

Lemma count_sleeps_refusals (retries delay attempt : Z) (n : nat) :
  count_sleeps (refusals retries delay attempt n) = n.
Proof.
  revert attempt. induction n as [|k IH]; intros attempt; [reflexivity|].
  unfold count_sleeps in *. simpl. rewrite IH. reflexivity.
Qed.

Lemma try_create_table_refused (w : world) (e : exn) :
  store w (connections w) = ConnectFails e ->
  exists w1,
    try_create_table w = (Raise e, w1) /\ same_store w w1 /\
    connections w1 = S (connections w) /\
    trace w1 = trace w ++ [Connect].
Proof.
  intros Hstore.
  unfold try_create_table, with_connection, bind, connect. rewrite Hstore.
  eexists. split; [reflexivity|]. repeat split.
Qed.

Lemma try_create_table_raises (w : world) (e : exn) :
  raises (store w (connections w)) = Some e ->
  exists w1,
    try_create_table w = (Raise e, w1) /\ same_store w w1 /\
    connections w1 = S (connections w) /\
    count_sleeps (trace w1) = count_sleeps (trace w).
Proof.
  intros Hraises.
  unfold try_create_table, with_connection, bind, connect, execute_create,
    commit, rollback, raise, log.
  destruct (store w (connections w)) as [|e'|e'|e'|e'|e'] eqn:Hstore;
    simpl in Hraises; inversion Hraises; subst e; cbn;
    repeat (rewrite Hstore; cbn);
    (eexists; split; [reflexivity|]; repeat split; cbn;
     unfold count_sleeps; rewrite ?filter_app, ?length_app; cbn;
     try reflexivity; lia).
Qed.

Lemma retry_step (retries delay attempt : Z) (w : world) :
  0 <= delay ->
  (print (NotReady attempt retries delay) ;;; sleep delay) w
  = (Ok tt, log (Sleep delay) (log (Printed (NotReady attempt retries delay)) w)).
Proof.
  intros Hdelay. unfold bind, print, sleep.
  destruct (Z.ltb_spec delay 0); [lia|reflexivity].
Qed.

(** The loop leaves within [retries - attempt] iterations, whatever the
    store does. *)
Lemma create_table_loop_returns (retries delay : Z) (fuel : nat) :
  forall (attempt : Z) (w : world),
    retries - attempt <= Z.of_nat fuel ->
    exists r, create_table_loop fuel retries delay attempt w = Some r.
Proof.
  induction fuel as [|fuel IH]; intros attempt w Hfuel.
  - simpl. destruct (Z.ltb_spec attempt retries); [lia|]. eexists; reflexivity.
  - simpl. destruct (Z.ltb_spec attempt retries); [|eexists; reflexivity].
    destruct (try_create_table w) as [[[]|e] w1]; [eexists; reflexivity|].
    destruct (is_OperationalError e); [|eexists; reflexivity].
    destruct ((print (NotReady (attempt + 1) retries delay) ;;; sleep delay) w1)
      as [[[]|e'] w2]; [|eexists; reflexivity].
    apply IH. lia.
Qed.

Lemma create_table_returns (retries delay : Z) (w : world) :
  exists r, create_table retries delay w = Some r.
Proof. apply create_table_loop_returns. lia. Qed.

Lemma create_table_loop_unreachable (retries delay : Z) (n : nat) :
  forall (attempt : Z) (w : world),
    0 <= delay ->
    retries - attempt = Z.of_nat n ->
    (forall k, store w k = ConnectFails OperationalError) ->
    exists w',
      create_table_loop n retries delay attempt w
      = Some (Raise failed_to_connect, w') /\
      same_store w w' /\
      connections w' = (connections w + n)%nat /\
      trace w' = trace w ++ refusals retries delay attempt n.
Proof.
  induction n as [|n IH]; intros attempt w Hdelay Hleft Hstore.
  - simpl. destruct (Z.ltb_spec attempt retries); [lia|].
    exists w. repeat split; [lia|]. rewrite app_nil_r. reflexivity.
  - simpl create_table_loop.
    destruct (Z.ltb_spec attempt retries); [|lia].
    destruct (try_create_table_refused w OperationalError (Hstore _))
      as (w1 & Htry & [Hs1 Hm1] & Hc1 & Ht1).
    rewrite Htry. cbn [is_OperationalError]. rewrite retry_step by exact Hdelay.
    destruct (IH (attempt + 1)
                (log (Sleep delay)
                   (log (Printed (NotReady (attempt + 1) retries delay)) w1))
                Hdelay)
      as (w' & Hloop & [Hs Hm] & Hc & Ht).
    + lia.
    + intros k. cbn. rewrite Hs1. apply Hstore.
    + exists w'. split; [exact Hloop|]. cbn in Hs, Hm, Hc, Ht.
      repeat split.
      * congruence.
      * congruence.
      * lia.
      * rewrite Ht, Ht1. simpl refusals. unfold refused.
        rewrite <- !app_assoc. reflexivity.
Qed.

(** C8. Against a store that refuses every connection, and with a delay
    that is not negative, [create_table] ends by raising its own
    exception after exactly [retries] connection attempts, each followed
    by one sleep of [delay]; the table is left as it was. *)
Theorem create_table_unreachable (retries delay : Z) (w : world) :
  0 <= delay ->
  (forall k, store w k = ConnectFails OperationalError) ->
  exists w',
    create_table retries delay w = Some (Raise failed_to_connect, w') /\
    connections w' = (connections w + Z.to_nat retries)%nat /\
    trace w' = trace w ++ refusals retries delay 0 (Z.to_nat retries) /\
    count_sleeps (trace w') = (count_sleeps (trace w) + Z.to_nat retries)%nat /\
    mqtt_metrics w' = mqtt_metrics w.
Proof.
  intros Hdelay Hstore. unfold create_table.
  destruct (Z.le_gt_cases 0 retries) as [Hpos | Hneg].
  - destruct (create_table_loop_unreachable retries delay (Z.to_nat retries)
                0 w Hdelay) as (w' & Hloop & [Hs Hm] & Hc & Ht);
      [lia | exact Hstore |].
    exists w'. repeat split; try assumption.
    rewrite Ht, count_sleeps_app, count_sleeps_refusals. reflexivity.
  - replace (Z.to_nat retries) with 0%nat by lia. simpl.
    destruct (Z.ltb_spec 0 retries); [lia|].
    exists w. repeat split; try lia. rewrite app_nil_r. reflexivity.
Qed.

Lemma create_table_loop_other_error (retries delay : Z) (e : exn) (k : nat) :
  forall (fuel : nat) (attempt : Z) (w : world),
    0 <= delay ->
    attempt + Z.of_nat k < retries ->
    (k < fuel)%nat ->
    (forall i, (i < k)%nat ->
       raises (store w (connections w + i)%nat) = Some OperationalError) ->
    raises (store w (connections w + k)%nat) = Some e ->
    is_OperationalError e = false ->
    exists w',
      create_table_loop fuel retries delay attempt w = Some (Raise e, w') /\
      same_store w w' /\
      connections w' = (connections w + k + 1)%nat /\
      count_sleeps (trace w') = (count_sleeps (trace w) + k)%nat.
Proof.
  induction k as [|k IH]; intros fuel attempt w Hdelay Hleft Hfuel Hop He Hne;
    (destruct fuel as [|fuel]; [lia|]); simpl create_table_loop;
    (destruct (Z.ltb_spec attempt retries); [|lia]).
  - rewrite Nat.add_0_r in He.
    destruct (try_create_table_raises w e He) as (w1 & Htry & Hsame & Hc & Hs).
    rewrite Htry, Hne. exists w1. repeat split; try apply Hsame; lia.
  - pose proof (Hop 0%nat ltac:(lia)) as H0. rewrite Nat.add_0_r in H0.
    destruct (try_create_table_raises w OperationalError H0)
      as (w1 & Htry & [Hs1 Hm1] & Hc1 & Hsl1).
    rewrite Htry. cbn [is_OperationalError]. rewrite retry_step by exact Hdelay.
    destruct (IH fuel (attempt + 1)
                (log (Sleep delay)
                   (log (Printed (NotReady (attempt + 1) retries delay)) w1)))
      as (w' & Hloop & [Hs Hm] & Hc & Hsl); try assumption; try lia.
    + intros i Hi. cbn. rewrite Hs1, Hc1.
      replace (S (connections w) + i)%nat with (connections w + S i)%nat
        by lia.
      apply Hop. lia.
    + cbn. rewrite Hs1, Hc1.
      replace (S (connections w) + k)%nat with (connections w + S k)%nat
        by lia.
      exact He.
    + exists w'. split; [exact Hloop|].
      cbn [log store connections mqtt_metrics trace] in Hs, Hm, Hc, Hsl.
      rewrite !count_sleeps_app in Hsl. cbn in Hsl.
      repeat split; try congruence; lia.
Qed.

(** C10. After [k] attempts that failed with [OperationalError] and were
    retried, an attempt that raises any other exception [e] ends
    [create_table] with [e] at once: [k + 1] connections in all, [k]
    sleeps, none after [e], whatever is left of [retries].  What an
    attempt raises is what its [with] block raises: the exception of the
    store when it refuses the connection or fails the statement or the
    commit on a connection that stays usable, and the [InterfaceError] of
    the rollback, which is not retried, when the connection was lost. *)
Theorem create_table_other_error_propagates (retries delay : Z) (w : world)
  (k : nat) (e : exn) :
  0 <= delay ->
  Z.of_nat k < retries ->
  (forall i, (i < k)%nat ->
     raises (store w (connections w + i)%nat) = Some OperationalError) ->
  raises (store w (connections w + k)%nat) = Some e ->
  is_OperationalError e = false ->
  exists w',
    create_table retries delay w = Some (Raise e, w') /\
    connections w' = (connections w + k + 1)%nat /\
    count_sleeps (trace w') = (count_sleeps (trace w) + k)%nat /\
    mqtt_metrics w' = mqtt_metrics w.
Proof.
  intros Hdelay Hk Hop He Hne. unfold create_table.
  destruct (create_table_loop_other_error retries delay e k
              (Z.to_nat retries) 0 w)
    as (w' & Hloop & [Hs Hm] & Hc & Hsl); try assumption; try lia.
  exists w'. repeat split; assumption.
Qed.

Lemma create_table_unreachable_witness :
  exists w',
    create_table default_retries default_delay (fresh unreachable)
    = Some (Raise failed_to_connect, w') /\
    connections w' = 10%nat /\
    trace w' = refusals 10 5 0 10 /\
    count_sleeps (trace w') = 10%nat /\
    mqtt_metrics w' = [].
Proof.
  apply (create_table_unreachable default_retries default_delay
           (fresh unreachable)).
  - unfold default_delay. lia.
  - reflexivity.
Defined.

(** A negative delay is refused by [time.sleep]: its [ValueError] leaves
    the handler of the first failed attempt. *)
Lemma create_table_negative_delay :
  create_table 10 (-1) (fresh unreachable)
  = Some (Raise ValueError,
          {| store := unreachable;
             connections := 1;
             pending := [];
             mqtt_metrics := [];
             trace := [Connect; Printed (NotReady 1 10 (-1))] |}).
Proof. reflexivity. Qed.

(** A connection lost while the statement runs is not retried: the
    rollback of the [with] block raises [InterfaceError], which the
    [except] clause does not catch. *)
Example create_table_lost_connection :
  create_table 10 5 (fresh (fun _ => ExecuteDrops OperationalError))
  = Some (Raise InterfaceError,
          {| store := fun _ => ExecuteDrops OperationalError;
             connections := 1;
             pending := [];
             mqtt_metrics := [];
             trace := [Connect] |}).
Proof. reflexivity. Qed.

Lemma create_table_other_error_propagates_witness :
  exists w',
    create_table 10 5 (fresh refuses_then_rejects)
    = Some (Raise ProgrammingError, w') /\
    connections w' = 2%nat /\
    count_sleeps (trace w') = 1%nat /\
    mqtt_metrics w' = [].
Proof.
  apply (create_table_other_error_propagates 10 5
           (fresh refuses_then_rejects) 1 ProgrammingError).
  - lia.
  - lia.
  - intros i Hi. replace i with 0%nat by lia. reflexivity.
  - reflexivity.
  - reflexivity.
Defined.

(** ** Query service *)

(** C9, on the code.  With an empty table the 404 raised in the [try] is
    caught by [except Exception] and leaves as a 500 that wraps it: the
    status of an unexpected failure, and of a missing table, which is told
    apart by its detail only.  No reply is answered with a client error. *)
Theorem empty_table_is_answered_500 :
  Api.get_latest_temperature Api.NoRow
  = Api.Raises
      (Api.HTTPException 500
         (Api.InternalServerError (Api.HTTPException 404 Api.NoDataFound))) /\
  Api.get_latest_temperature (Api.QueryRaises Api.UndefinedTableError)
  = Api.Raises (Api.HTTPException 500 Api.TableDoesNotExist) /\
  Api.get_latest_temperature (Api.QueryRaises (Api.OtherError "timeout"))
  = Api.Raises
      (Api.HTTPException 500
         (Api.InternalServerError (Api.OtherError "timeout"))) /\
  (forall r,
     Api.is_client_error (Api.status (Api.get_latest_temperature r)) = false).
Proof.
  repeat split.
  intros r. unfold Api.get_latest_temperature.
  destruct r as [row| |e|e]; simpl.
  - destruct (dict_get row "Temperatur") as [v|]; [|reflexivity].
    unfold Api.status.
    destruct (Api.json_compliant (PDict [("Temperatur", v)])); reflexivity.
  - reflexivity.
  - destruct e; reflexivity.
  - destruct e; reflexivity.
Qed.

(** * Further properties of the code *)

(** ** Batch writer *)

Lemma insert_metrics_unfold (t : string) (metrics : pyval) (w : world) :
  insert_metrics t metrics w
  = match py_iter metrics with
    | Raise e => (Raise e, w)
    | Ok ms =>
        match build_rows (topic_dimensions t) ms with
        | Raise e => (Raise e, w)
        | Ok [] => (Ok tt, w)
        | Ok rows => write_rows rows w
        end
    end.
Proof.
  unfold insert_metrics, bind, lift.
  destruct (py_iter metrics) as [ms|e]; [|reflexivity].
  destruct (build_rows (topic_dimensions t) ms) as [[|r rs]|e]; reflexivity.
Qed.

(** X1. The batch of one message is all or nothing: either every row
    built from the metrics is appended to the table, in order, or
    [insert_metrics] raises and the table is as it was. *)
Theorem insert_metrics_all_or_nothing (t : string) (metrics : pyval)
  (w : world) :
  (exists ms rows,
     py_iter metrics = Ok ms /\
     build_rows (topic_dimensions t) ms = Ok rows /\
     fst (insert_metrics t metrics w) = Ok tt /\
     mqtt_metrics (snd (insert_metrics t metrics w))
     = mqtt_metrics w ++ rows) \/
  (exists e,
     fst (insert_metrics t metrics w) = Raise e /\
     mqtt_metrics (snd (insert_metrics t metrics w)) = mqtt_metrics w).
Proof.
  rewrite insert_metrics_unfold.
  destruct (py_iter metrics) as [ms|e] eqn:Hiter;
    [|right; exists e; split; reflexivity].
  destruct (build_rows (topic_dimensions t) ms) as [rows|e] eqn:Hrows;
    [|right; exists e; split; reflexivity].
  destruct rows as [|r rs].
  - left. exists ms, []. cbn. rewrite app_nil_r. repeat split; assumption.
  - destruct (write_rows_outcome (r :: rs) w) as (_ & _ & [[Hok Ht] | [e [He Ht]]]).
    + left. exists ms, (r :: rs). repeat split; assumption.
    + right. exists e. split; assumption.
Qed.

Lemma grows_refl (n : nat) (w : world) : grows n w w.
Proof.
  repeat split; try lia. exists []. rewrite app_nil_r. reflexivity.
Qed.

Lemma insert_metrics_grows (t : string) (metrics : pyval) (w : world) :
  grows 1 w (snd (insert_metrics t metrics w)).
Proof.
  rewrite insert_metrics_unfold.
  destruct (py_iter metrics) as [ms|e]; [|apply grows_refl].
  destruct (build_rows (topic_dimensions t) ms) as [[|r rs]|e];
    [apply grows_refl| |apply grows_refl].
  destruct (write_rows_outcome (r :: rs) w) as (Hs & Hc & Hcases).
  split; [exact Hs|]. split; [lia|].
  destruct Hcases as [[_ Ht] | [e [_ Ht]]].
  - exists (r :: rs). exact Ht.
  - exists []. rewrite app_nil_r. exact Ht.
Qed.

Section HandlerEffects.

Variable loads : string -> outcome pyval.

Lemma process_grows (msg : mqtt_message) (w : world) :
  grows 1 w (snd (process loads msg w)).
Proof.
  unfold process, bind, lift.
  destruct (loads (payload msg)) as [body|e]; [|apply grows_refl].
  destruct (py_get_default body "metrics" (PList [])) as [metrics|e];
    [|apply grows_refl].
  pose proof (insert_metrics_grows (topic msg) metrics w) as Hg.
  destruct (insert_metrics (topic msg) metrics w) as [[[]|e] w1]; [|exact Hg].
  destruct (py_len metrics) as [n|e]; exact Hg.
Qed.

Lemma on_message_returns (msg : mqtt_message) (w : world) :
  fst (on_message loads msg w) = Ok tt.
Proof.
  unfold on_message.
  destruct (process loads msg w) as [[[]|e] w']; reflexivity.
Qed.

(** X3. One message costs at most one connection to the store and can
    only append rows to the table: the rows already stored stay, in their
    order, and the store is asked nothing else. *)
Theorem on_message_appends_only (msg : mqtt_message) (w : world) :
  (connections w <= connections (snd (on_message loads msg w))
   <= S (connections w))%nat /\
  exists added,
    mqtt_metrics (snd (on_message loads msg w)) = mqtt_metrics w ++ added.
Proof.
  pose proof (process_grows msg w) as (Hs & Hc & Hadd).
  unfold on_message.
  destruct (process loads msg w) as [[[]|e] w']; cbn in *;
    (split; [lia|exact Hadd]).
Qed.

Lemma on_message_grows (msg : mqtt_message) (w : world) :
  grows 1 w (snd (on_message loads msg w)).
Proof.
  pose proof (process_grows msg w) as Hg.
  unfold on_message.
  destruct (process loads msg w) as [[[]|e] w']; exact Hg.
Qed.

(** X4. Over any sequence of delivered messages whose topics decode,
    handled in order, at most one connection to the store is attempted
    per message, and the table only grows at its end: no row is ever
    removed, changed or moved. *)
Theorem handle_all_appends_only (msgs : list mqtt_message) (w : world) :
  (connections w <= connections (snd (handle_all loads msgs w))
   <= connections w + List.length msgs)%nat /\
  exists added,
    mqtt_metrics (snd (handle_all loads msgs w)) = mqtt_metrics w ++ added.
Proof.
  revert w. induction msgs as [|msg rest IH]; intros w.
  - cbn. split; [lia|]. exists []. rewrite app_nil_r. reflexivity.
  - cbn [handle_all]. unfold bind.
    pose proof (on_message_returns msg w) as Hok.
    pose proof (on_message_grows msg w) as (Hs & Hc & a1 & Ht1).
    destruct (on_message loads msg w) as [o w1]. cbn in Hok, Hs, Hc, Ht1.
    subst o. destruct (IH w1) as (Hc' & a2 & Ht2).
    split; [cbn [List.length]; lia|].
    exists (a1 ++ a2). rewrite Ht2, Ht1, app_assoc. reflexivity.
Qed.

End HandlerEffects.

(** ** Rows of a batch *)

Lemma build_rows_Forall2 (dims : dimensions) (ms : list pyval)
  (rows : list row) :
  build_rows dims ms = Ok rows <->
  Forall2 (fun m r => build_row dims m = Ok r) ms rows.
Proof.
  split.
  - revert rows. induction ms as [|m rest IH]; intros rows H; simpl in H.
    + inversion H. constructor.
    + destruct (build_row dims m) as [r|e] eqn:Hm; [|discriminate].
      simpl in H.
      destruct (build_rows dims rest) as [rs|e] eqn:Hrest; [|discriminate].
      inversion H; subst. constructor; [exact Hm|]. apply IH. reflexivity.
  - induction 1 as [|m r rest rs Hm _ IH]; [reflexivity|].
    simpl. rewrite Hm. simpl. rewrite IH. reflexivity.
Qed.

Lemma build_rows_length (dims : dimensions) (ms : list pyval)
  (rows : list row) :
  build_rows dims ms = Ok rows -> List.length rows = List.length ms.
Proof.
  intros H. apply build_rows_Forall2 in H.
  induction H; simpl; congruence.
Qed.

(** X5. The rows of a batch are the rows of its metrics, one for each
    metric and in the order of the metrics; the batch is built exactly
    when every metric builds. *)
Theorem build_rows_one_row_per_metric (dims : dimensions) (ms : list pyval)
  (rows : list row) :
  (build_rows dims ms = Ok rows <->
   Forall2 (fun m r => build_row dims m = Ok r) ms rows) /\
  (build_rows dims ms = Ok rows -> List.length rows = List.length ms).
Proof.
  split; [apply build_rows_Forall2 | apply build_rows_length].
Qed.

(** The batch fails with the exception of its first metric that fails. *)
Lemma build_rows_first_failure (dims : dimensions) (pre post : list pyval)
  (m : pyval) (built : list row) (e : exn) :
  build_rows dims pre = Ok built ->
  build_row dims m = Raise e ->
  build_rows dims (pre ++ m :: post) = Raise e.
Proof.
  revert built. induction pre as [|a pre IH]; intros built Hpre Hm.
  - simpl. rewrite Hm. reflexivity.
  - simpl in Hpre |- *.
    destruct (build_row dims a) as [r|e'']; [|discriminate]. simpl in *.
    destruct (build_rows dims pre) as [rs|e'']; [|discriminate].
    rewrite (IH rs eq_refl Hm). reflexivity.
Qed.

(** X6. A metric without a timestamp, or with a null one, does not
    build: once its value field is settled, scaling [None] by 1000 raises
    [TypeError]. *)
Theorem missing_timestamp_is_type_error (dims : dimensions)
  (d : list (string * pyval)) (v : option float) :
  dict_get d "timestamp" = None \/ dict_get d "timestamp" = Some PNone ->
  value_field (PDict d) = Ok v ->
  build_row dims (PDict d) = Raise TypeError.
Proof.
  intros Hts Hv. rewrite build_row_dict, Hv. unfold dict_get_or.
  destruct Hts as [-> | ->]; reflexivity.
Qed.

Lemma missing_timestamp_is_type_error_witness :
  build_row (topic_dimensions "spBv1.0/plant/NDATA/edge1")
    (PDict [("name", PStr "temp"); ("value", PFloat 21.7)])
  = Raise TypeError.
Proof.
  apply (missing_timestamp_is_type_error
           (topic_dimensions "spBv1.0/plant/NDATA/edge1")
           [("name", PStr "temp"); ("value", PFloat 21.7)] (Some 21.7%float)).
  - left. reflexivity.
  - reflexivity.
Defined.

Lemma string_length_app (s t : string) :
  String.length (s ++ t) = (String.length s + String.length t)%nat.
Proof. induction s as [|c s IH]; simpl; [reflexivity|]. rewrite IH. reflexivity. Qed.

Lemma str_repeat_length (s : string) (n : nat) :
  String.length (str_repeat s n) = (n * String.length s)%nat.
Proof.
  induction n as [|n IH]; [reflexivity|].
  simpl. rewrite string_length_app, IH. reflexivity.
Qed.

(** X7. A timestamp given as a string is not refused: the row is built
    and its [ts] is that string repeated 1000 times, 1000 times as long,
    since [*] on a [str] repeats it. *)
Theorem string_timestamp_is_repeated (dims : dimensions)
  (d : list (string * pyval)) (v : option float) (s : string) :
  dict_get d "timestamp" = Some (PStr s) ->
  value_field (PDict d) = Ok v ->
  build_row dims (PDict d)
  = Ok (row_of dims d v (PStr (str_repeat s 1000))) /\
  String.length (str_repeat s 1000) = (1000 * String.length s)%nat.
Proof.
  intros Hts Hv. split.
  - rewrite build_row_dict, Hv. unfold dict_get_or. rewrite Hts. reflexivity.
  - apply str_repeat_length.
Qed.

Lemma string_timestamp_is_repeated_witness :
  build_row (topic_dimensions "a/b")
    (PDict [("value", PInt 2); ("timestamp", PStr "17")])
  = Ok (row_of (topic_dimensions "a/b")
          [("value", PInt 2); ("timestamp", PStr "17")]
          (Some 2%float) (PStr (str_repeat "17" 1000))) /\
  String.length (str_repeat "17" 1000) = (1000 * 2)%nat.
Proof.
  apply (string_timestamp_is_repeated (topic_dimensions "a/b")
           [("value", PInt 2); ("timestamp", PStr "17")]
           (Some 2%float) "17"); reflexivity.
Defined.

(** ** Messages *)

Section HandlerBatches.

Variable loads : string -> outcome pyval.

(** X8. A message whose metrics all build into rows that psycopg2 can
    adapt (no object, and no string holding U+0000, in any column),
    handled while the store serves the connection, appends one row per
    metric, in the order of the metrics: one connection, one call of
    [execute_values] that sends the rows in pages of 100, one commit of
    them all; the handler then reports the number of metrics. *)
Theorem on_message_stores_batch (msg : mqtt_message)
  (d : list (string * pyval)) (ms : list pyval) (rows : list row)
  (w : world) :
  loads (payload msg) = Ok (PDict d) ->
  dict_get d "metrics" = Some (PList ms) ->
  build_rows (topic_dimensions (topic msg)) ms = Ok rows ->
  rows <> [] ->
  rows_adapt_error rows = None ->
  store w (connections w) = Healthy ->
  on_message loads msg w
  = (Ok tt,
     log (Printed (Inserted (Z.of_nat (List.length rows)) (topic msg)))
         (written rows w)) /\
  Forall2 (fun m r => build_row (topic_dimensions (topic msg)) m = Ok r)
          ms rows /\
  List.concat (paginate rows) = rows /\
  Forall (fun page => (List.length page <= page_size)%nat) (paginate rows).
Proof.
  intros Hloads Hms Hrows Hne Hadapt Hstore. repeat split.
  - rewrite (on_message_metrics loads msg d ms w Hloads)
      by (unfold dict_get_or; rewrite Hms; reflexivity).
    destruct rows as [|r rs]; [congruence|].
    rewrite (insert_metrics_rows _ _ _ _ w Hrows).
    rewrite write_rows_healthy by assumption.
    rewrite (build_rows_length _ _ _ Hrows). reflexivity.
  - apply build_rows_Forall2. exact Hrows.
  - apply paginate_concat.
  - apply paginate_page_size.
Qed.

Lemma write_rows_raises (rows : list row) (e : exn) (w : world) :
  rows <> [] ->
  rows_adapt_error rows = None ->
  raises (store w (connections w)) = Some e ->
  exists w1,
    write_rows rows w = (Raise e, w1) /\
    connections w1 = S (connections w) /\
    mqtt_metrics w1 = mqtt_metrics w.
Proof.
  intros Hne Hadapt Hraises.
  destruct rows as [|r rs]; [congruence|].
  destruct (paginate_not_nil r rs) as (page & rest & Hpages).
  assert (Hpage : rows_adapt_error page = None).
  { pose proof (pages_adapt (paginate (r :: rs))) as Hall.
    rewrite paginate_concat, Hpages in Hall.
    specialize (Hall Hadapt). inversion Hall. assumption. }
  unfold write_rows. rewrite with_connection_unfold.
  pose proof (execute_pages_effect (connections w) (paginate (r :: rs))
                (connected w)) as (Hs & Hc & Hm & Hok).
  pose proof (execute_pages_served (connections w) (paginate (r :: rs))
                (connected w)
                ltac:(apply pages_adapt; rewrite paginate_concat;
                      exact Hadapt)) as Hserved.
  unfold execute_values, bind, commit, rollback, raise, ret. cbv beta.
  destruct (store w (connections w)) as [|e'|e'|e'|e'|e'] eqn:Hstore;
    simpl in Hraises; inversion Hraises; subst e.
  - eexists. split; [reflexivity|]. split; reflexivity.
  - rewrite Hpages, (execute_pages_raises _ page rest e' (connected w) Hpage)
      by (left; exact Hstore).
    cbn. rewrite Hstore. eexists. split; [reflexivity|]. split; reflexivity.
  - cbn [connected store] in Hserved.
    destruct (execute_pages (connections w) (paginate (r :: rs)) (connected w))
      as [o w1]. cbn [fst snd] in Hs, Hc, Hm, Hok, Hserved.
    cbn [connected store connections mqtt_metrics] in Hs, Hc, Hm.
    rewrite Hserved by (intros e0; rewrite Hstore; discriminate).
    rewrite !Hs. rewrite Hstore.
    cbn. rewrite Hs. cbn. rewrite Hstore. cbn.
    eexists. split; [reflexivity|]. cbn. split; congruence.
  - rewrite Hpages, (execute_pages_raises _ page rest e' (connected w) Hpage)
      by (right; exact Hstore).
    cbn. rewrite Hstore. eexists. split; [reflexivity|]. split; reflexivity.
  - cbn [connected store] in Hserved.
    destruct (execute_pages (connections w) (paginate (r :: rs)) (connected w))
      as [o w1]. cbn [fst snd] in Hs, Hc, Hm, Hok, Hserved.
    cbn [connected store connections mqtt_metrics] in Hs, Hc, Hm.
    rewrite Hserved by (intros e0; rewrite Hstore; discriminate).
    rewrite !Hs. rewrite Hstore.
    cbn. rewrite Hs. cbn. rewrite Hstore. cbn.
    eexists. split; [reflexivity|]. cbn. split; congruence.
Qed.

(** X9. When the rows of a message can be adapted and the [with] block
    over the connection raises [e] (the store's own exception when it
    refuses the connection or fails the insert or the commit on a
    connection that stays usable, the [InterfaceError] of the rollback
    when the connection was lost), the handler reports [e] for the topic
    and returns: one connection was spent and no row of the message is
    stored. *)
Theorem on_message_store_failure (msg : mqtt_message)
  (d : list (string * pyval)) (ms : list pyval) (rows : list row)
  (e : exn) (w : world) :
  loads (payload msg) = Ok (PDict d) ->
  dict_get d "metrics" = Some (PList ms) ->
  build_rows (topic_dimensions (topic msg)) ms = Ok rows ->
  rows <> [] ->
  rows_adapt_error rows = None ->
  raises (store w (connections w)) = Some e ->
  exists w1,
    on_message loads msg w
    = (Ok tt, log (Printed (ErrorProcessing (topic msg) e)) w1) /\
    connections w1 = S (connections w) /\
    mqtt_metrics w1 = mqtt_metrics w.
Proof.
  intros Hloads Hms Hrows Hne Hadapt Hraises.
  rewrite (on_message_metrics loads msg d ms w Hloads)
    by (unfold dict_get_or; rewrite Hms; reflexivity).
  destruct rows as [|r rs]; [congruence|].
  rewrite (insert_metrics_rows _ _ _ _ w Hrows).
  destruct (write_rows_raises (r :: rs) e w Hne Hadapt Hraises)
    as (w1 & Hw & Hc & Ht).
  rewrite Hw. exists w1. repeat split; assumption.
Qed.

(** X10. The first metric that fails to build decides the message: its
    exception is the one reported, the metrics before it are not
    inserted although they built, and the store is not contacted. *)
Theorem first_failing_metric_rejects_message (msg : mqtt_message)
  (d : list (string * pyval)) (pre post : list pyval) (m : pyval)
  (built : list row) (e : exn) (w : world) :
  loads (payload msg) = Ok (PDict d) ->
  dict_get d "metrics" = Some (PList (pre ++ m :: post)) ->
  build_rows (topic_dimensions (topic msg)) pre = Ok built ->
  build_row (topic_dimensions (topic msg)) m = Raise e ->
  on_message loads msg w
  = (Ok tt, log (Printed (ErrorProcessing (topic msg) e)) w).
Proof.
  intros Hloads Hms Hpre Hm.
  rewrite (on_message_metrics loads msg d (pre ++ m :: post) w Hloads)
    by (unfold dict_get_or; rewrite Hms; reflexivity).
  rewrite (insert_metrics_raises _ _ e w
             (build_rows_first_failure _ pre post m built e Hpre Hm)).
  reflexivity.
Qed.

(** X11. Metrics that are not a list of objects.  When the metrics are
    not iterable ([null], a boolean, a number) the handler reports the
    [TypeError] of the [for]; when their first item is not an object (a
    number in the list, the first character of a string, the first key
    of an object) it reports the [AttributeError] of [m.get].  The store
    is not contacted in either case. *)
Theorem malformed_metrics_are_reported (msg : mqtt_message)
  (d : list (string * pyval)) (metrics : pyval) (w : world) :
  loads (payload msg) = Ok (PDict d) ->
  dict_get d "metrics" = Some metrics ->
  (forall e,
     py_iter metrics = Raise e ->
     e = TypeError /\
     on_message loads msg w
     = (Ok tt, log (Printed (ErrorProcessing (topic msg) e)) w)) /\
  (forall m rest,
     py_iter metrics = Ok (m :: rest) ->
     (forall fields, m <> PDict fields) ->
     on_message loads msg w
     = (Ok tt, log (Printed (ErrorProcessing (topic msg) AttributeError)) w)).
Proof.
  intros Hloads Hms.
  assert (Hstep : forall e,
            insert_metrics (topic msg) metrics w = (Raise e, w) ->
            on_message loads msg w
            = (Ok tt, log (Printed (ErrorProcessing (topic msg) e)) w)).
  { intros e He. unfold on_message, process, bind, lift. rewrite Hloads.
    cbn [py_get_default]. unfold dict_get_or. rewrite Hms, He. reflexivity. }
  split.
  - intros e He. split.
    + destruct metrics; simpl in He; congruence.
    + apply Hstep. rewrite insert_metrics_unfold, He. reflexivity.
  - intros m rest Hiter Hm. apply Hstep.
    rewrite insert_metrics_unfold, Hiter.
    assert (Hrow : build_row (topic_dimensions (topic msg)) m
                   = Raise AttributeError).
    { destruct m; try reflexivity. exfalso. eapply Hm. reflexivity. }
    simpl. rewrite Hrow. reflexivity.
Qed.

End HandlerBatches.

Lemma on_message_stores_batch_witness :
  on_message ascii_json_loads two_metrics_message (fresh always_healthy)
  = (Ok tt,
     log (Printed (Inserted 2 (topic two_metrics_message)))
         (written [scenario_row; second_row] (fresh always_healthy))) /\
  Forall2 (fun m r =>
             build_row (topic_dimensions (topic two_metrics_message)) m = Ok r)
          [PDict good_metric; PDict second_metric]
          [scenario_row; second_row] /\
  List.concat (paginate [scenario_row; second_row])
  = [scenario_row; second_row] /\
  Forall (fun page => (List.length page <= page_size)%nat)
         (paginate [scenario_row; second_row]).
Proof.
  apply (on_message_stores_batch ascii_json_loads two_metrics_message
           [("metrics", PList [PDict good_metric; PDict second_metric])]
           [PDict good_metric; PDict second_metric]
           [scenario_row; second_row] (fresh always_healthy)).
  - vm_compute. reflexivity.
  - reflexivity.
  - vm_compute. reflexivity.
  - discriminate.
  - reflexivity.
  - reflexivity.
Defined.

Lemma on_message_store_failure_witness :
  exists w1,
    on_message ascii_json_loads two_metrics_message (fresh commit_fails)
    = (Ok tt,
       log (Printed (ErrorProcessing (topic two_metrics_message)
                       OperationalError)) w1) /\
    connections w1 = 1%nat /\
    mqtt_metrics w1 = [].
Proof.
  apply (on_message_store_failure ascii_json_loads two_metrics_message
           [("metrics", PList [PDict good_metric; PDict second_metric])]
           [PDict good_metric; PDict second_metric]
           [scenario_row; second_row] OperationalError (fresh commit_fails)).
  - vm_compute. reflexivity.
  - reflexivity.
  - vm_compute. reflexivity.
  - discriminate.
  - reflexivity.
  - reflexivity.
Defined.

Lemma first_failing_metric_rejects_message_witness :
  on_message ascii_json_loads bad_value_message (fresh always_healthy)
  = (Ok tt,
     log (Printed (ErrorProcessing (topic bad_value_message) ValueError))
         (fresh always_healthy)).
Proof.
  apply (first_failing_metric_rejects_message ascii_json_loads
           bad_value_message
           [("metrics", PList [PDict good_metric; PDict bad_metric])]
           [PDict good_metric] [] (PDict bad_metric) [scenario_row]
           ValueError (fresh always_healthy)).
  - vm_compute. reflexivity.
  - reflexivity.
  - vm_compute. reflexivity.
  - vm_compute. reflexivity.
Defined.

Lemma malformed_metrics_are_reported_witness :
  (forall e,
     py_iter (PStr "temp") = Raise e ->
     e = TypeError /\
     on_message ascii_json_loads string_metrics_message (fresh always_healthy)
     = (Ok tt,
        log (Printed (ErrorProcessing (topic string_metrics_message) e))
            (fresh always_healthy))) /\
  (forall m rest,
     py_iter (PStr "temp") = Ok (m :: rest) ->
     (forall fields, m <> PDict fields) ->
     on_message ascii_json_loads string_metrics_message (fresh always_healthy)
     = (Ok tt,
        log (Printed (ErrorProcessing (topic string_metrics_message)
                        AttributeError))
            (fresh always_healthy))).
Proof.
  apply (malformed_metrics_are_reported ascii_json_loads
           string_metrics_message [("metrics", PStr "temp")] (PStr "temp")
           (fresh always_healthy)).
  - vm_compute. reflexivity.
  - reflexivity.
Defined.

(** ** Topic decoder, further *)

(** X12. The namespace label is never absent: [split] always gives a
    first part, so the [else None] of the namespace cannot be taken.  It
    is the topic up to its first slash (the whole topic, possibly empty,
    when there is none). *)
Theorem namespace_always_present (t : string) :
  exists first rest,
    split slash t = first :: rest /\
    contains slash first = false /\
    namespace (topic_dimensions t) = Some first.
Proof.
  pose proof (split_not_nil slash t) as Hnil.
  pose proof (split_parts_free slash t) as Hfree.
  unfold topic_dimensions. cbn [namespace]. rewrite part_nth_error.
  destruct (split slash t) as [|first rest]; [congruence|].
  exists first, rest. inversion Hfree; subst. repeat split. assumption.
Qed.

(** X13. Segments after the fifth are ignored: two topics with the same
    first five segments decode to the same dimensions. *)
Theorem segments_after_fifth_are_ignored (segs extra : list string) :
  List.length segs = 5%nat ->
  Forall (fun s => contains slash s = false) (segs ++ extra) ->
  topic_dimensions (join slash (segs ++ extra))
  = topic_dimensions (join slash segs).
Proof.
  intros Hlen Hfree.
  assert (Hsegs : Forall (fun s => contains slash s = false) segs).
  { apply Forall_app in Hfree. apply Hfree. }
  destruct segs as [|a [|b [|c [|d' [|e [|f rest]]]]]]; try discriminate.
  unfold topic_dimensions.
  rewrite !split_join by (assumption || discriminate).
  rewrite !part_nth_error. reflexivity.
Qed.

Lemma segments_after_fifth_are_ignored_witness :
  topic_dimensions "spBv1.0/plant/DDATA/edge1/pump7/extra/levels"
  = topic_dimensions "spBv1.0/plant/DDATA/edge1/pump7".
Proof.
  apply (segments_after_fifth_are_ignored
           ["spBv1.0"; "plant"; "DDATA"; "edge1"; "pump7"]
           ["extra"; "levels"]).
  - reflexivity.
  - repeat constructor.
Defined.

(** ** Schema initializer, further *)

Lemma try_create_table_healthy (w : world) :
  store w (connections w) = Healthy ->
  exists w1,
    try_create_table w = (Ok tt, w1) /\ same_store w w1 /\
    connections w1 = S (connections w) /\
    count_sleeps (trace w1) = count_sleeps (trace w) /\
    trace w1
    = trace w ++ [Connect; CreateTable; Commit; Commit; Printed TableReady].
Proof.
  intros Hstore.
  unfold try_create_table, with_connection, bind, connect, execute_create,
    commit, ret, print, log.
  cbn. repeat (rewrite Hstore; cbn).
  eexists. split; [reflexivity|]. cbn.
  repeat split; rewrite <- ?app_assoc, ?app_nil_r; cbn; try reflexivity.
  unfold count_sleeps. rewrite filter_app, length_app. cbn. lia.
Qed.

Lemma create_table_loop_recovers (retries delay : Z) (k : nat) :
  forall (fuel : nat) (attempt : Z) (w : world),
    0 <= delay ->
    attempt + Z.of_nat k < retries ->
    (k < fuel)%nat ->
    (forall i, (i < k)%nat ->
       raises (store w (connections w + i)%nat) = Some OperationalError) ->
    store w (connections w + k)%nat = Healthy ->
    exists w',
      create_table_loop fuel retries delay attempt w = Some (Ok tt, w') /\
      same_store w w' /\
      connections w' = (connections w + k + 1)%nat /\
      count_sleeps (trace w') = (count_sleeps (trace w) + k)%nat /\
      exists before, trace w' = before ++ [Printed TableReady].
Proof.
  induction k as [|k IH]; intros fuel attempt w Hdelay Hleft Hfuel Hop Hok;
    (destruct fuel as [|fuel]; [lia|]); simpl create_table_loop;
    (destruct (Z.ltb_spec attempt retries); [|lia]).
  - rewrite Nat.add_0_r in Hok.
    destruct (try_create_table_healthy w Hok)
      as (w1 & Htry & Hsame & Hc & Hs & Ht).
    rewrite Htry. exists w1. repeat split; try apply Hsame; try lia.
    exists (trace w ++ [Connect; CreateTable; Commit; Commit]).
    rewrite Ht, <- app_assoc. reflexivity.
  - pose proof (Hop 0%nat ltac:(lia)) as H0. rewrite Nat.add_0_r in H0.
    destruct (try_create_table_raises w OperationalError H0)
      as (w1 & Htry & [Hs1 Hm1] & Hc1 & Hsl1).
    rewrite Htry. cbn [is_OperationalError]. rewrite retry_step by exact Hdelay.
    destruct (IH fuel (attempt + 1)
                (log (Sleep delay)
                   (log (Printed (NotReady (attempt + 1) retries delay)) w1)))
      as (w' & Hloop & [Hs Hm] & Hc & Hsl & Hready); try assumption; try lia.
    + intros i Hi. cbn. rewrite Hs1, Hc1.
      replace (S (connections w) + i)%nat with (connections w + S i)%nat
        by lia.
      apply Hop. lia.
    + cbn. rewrite Hs1, Hc1.
      replace (S (connections w) + k)%nat with (connections w + S k)%nat
        by lia.
      exact Hok.
    + exists w'. split; [exact Hloop|].
      cbn [log store connections mqtt_metrics trace] in Hs, Hm, Hc, Hsl.
      rewrite !count_sleeps_app in Hsl. cbn in Hsl.
      repeat split; try congruence; try lia; exact Hready.
Qed.

(** X14. When [k] attempts raise [OperationalError] (a refused
    connection, or a statement or commit that fails on a connection that
    stays usable) and the store serves the next one, with [k] below
    [retries] and a delay that is not negative, [create_table] returns
    normally after [k + 1] connections and [k] sleeps; the last thing it
    does is to announce the table, and the rows of the table are
    untouched. *)
Theorem create_table_recovers (retries delay : Z) (w : world) (k : nat) :
  0 <= delay ->
  Z.of_nat k < retries ->
  (forall i, (i < k)%nat ->
     raises (store w (connections w + i)%nat) = Some OperationalError) ->
  store w (connections w + k)%nat = Healthy ->
  exists w',
    create_table retries delay w = Some (Ok tt, w') /\
    connections w' = (connections w + k + 1)%nat /\
    count_sleeps (trace w') = (count_sleeps (trace w) + k)%nat /\
    mqtt_metrics w' = mqtt_metrics w /\
    exists before, trace w' = before ++ [Printed TableReady].
Proof.
  intros Hdelay Hk Hop Hok. unfold create_table.
  destruct (create_table_loop_recovers retries delay k (Z.to_nat retries) 0 w)
    as (w' & Hloop & [Hs Hm] & Hc & Hsl & Hready); try assumption; try lia.
  exists w'. repeat split; assumption.
Qed.

Lemma create_table_recovers_witness :
  exists w',
    create_table default_retries default_delay (fresh refuses_twice)
    = Some (Ok tt, w') /\
    connections w' = 3%nat /\
    count_sleeps (trace w') = 2%nat /\
    mqtt_metrics w' = [] /\
    exists before, trace w' = before ++ [Printed TableReady].
Proof.
  apply (create_table_recovers default_retries default_delay
           (fresh refuses_twice) 2).
  - unfold default_delay. lia.
  - unfold default_retries. lia.
  - intros i Hi. destruct i as [|[|i]]; [reflexivity|reflexivity|lia].
  - reflexivity.
Defined.

Lemma raises_none (r : response) : raises r = None -> r = Healthy.
Proof. destruct r; simpl; congruence. Qed.

(** One attempt, whatever the store answers: one connection, no sleep,
    and it succeeds only on a served connection. *)
Lemma try_create_table_effect (w : world) :
  exists o w1,
    try_create_table w = (o, w1) /\ same_store w w1 /\
    connections w1 = S (connections w) /\
    count_sleeps (trace w1) = count_sleeps (trace w) /\
    (o = Ok tt <-> store w (connections w) = Healthy) /\
    (forall e, o = Raise e <-> raises (store w (connections w)) = Some e).
Proof.
  destruct (raises (store w (connections w))) as [e|] eqn:Hr.
  - destruct (try_create_table_raises w e Hr) as (w1 & Htry & Hsame & Hc & Hs).
    exists (Raise e), w1. repeat split; try assumption; try apply Hsame;
      try congruence.
    intros Hh. rewrite Hh in Hr. discriminate.
  - apply raises_none in Hr.
    destruct (try_create_table_healthy w Hr)
      as (w1 & Htry & Hsame & Hc & Hs & _).
    exists (Ok tt), w1. repeat split; try assumption; try apply Hsame;
      try congruence; rewrite Hr; simpl; congruence.
Qed.

Lemma create_table_loop_bounded (retries delay : Z) (fuel : nat) :
  forall (attempt : Z) (w : world),
    retries - attempt <= Z.of_nat fuel ->
    exists o w',
      create_table_loop fuel retries delay attempt w = Some (o, w') /\
      same_store w w' /\
      (connections w <= connections w'
       <= connections w + Z.to_nat (retries - attempt))%nat /\
      (count_sleeps (trace w') <= count_sleeps (trace w)
                                  + Z.to_nat (retries - attempt))%nat /\
      (o = Ok tt ->
       (connections w < connections w')%nat /\
       store w (pred (connections w')) = Healthy).
Proof.
  induction fuel as [|fuel IH]; intros attempt w Hfuel.
  - simpl. destruct (Z.ltb_spec attempt retries); [lia|].
    exists (Raise failed_to_connect), w.
    repeat split; try lia; discriminate.
  - simpl. destruct (Z.ltb_spec attempt retries).
    2:{ exists (Raise failed_to_connect), w.
        repeat split; try lia; discriminate. }
    destruct (try_create_table_effect w)
      as (o & w1 & Htry & [Hs1 Hm1] & Hc1 & Hsl1 & Hok1 & Hraise1).
    rewrite Htry. destruct o as [[]|e].
    + exists (Ok tt), w1. repeat split; try assumption; try lia.
      rewrite Hc1. simpl. apply Hok1. reflexivity.
    + destruct (is_OperationalError e).
      2:{ exists (Raise e), w1. repeat split; try assumption; try lia;
          discriminate. }
      unfold bind, print, sleep.
      destruct (Z.ltb_spec delay 0).
      * eexists (Raise ValueError), _. split; [reflexivity|].
        cbn [log store connections mqtt_metrics trace].
        rewrite count_sleeps_app. cbn.
        repeat split; try assumption; try lia; discriminate.
      * destruct (IH (attempt + 1)
                    (log (Sleep delay)
                       (log (Printed (NotReady (attempt + 1) retries delay))
                            w1)))
          as (o' & w' & Hloop & [Hs Hm] & Hc & Hsl & Hok); [lia|].
        exists o', w'. split; [exact Hloop|].
        cbn [log store connections mqtt_metrics trace] in Hs, Hm, Hc, Hsl, Hok.
        rewrite !count_sleeps_app in Hsl. cbn in Hsl.
        rewrite Hs1 in Hok.
        repeat split; try congruence; try lia; apply Hok; assumption.
Qed.

(** X15. Whatever the store does, [create_table] comes to an end having
    attempted at most [retries] connections and slept at most [retries]
    times, and it leaves the rows of the table alone.  It returns
    normally only when the store served the last connection it opened. *)
Theorem create_table_is_bounded (retries delay : Z) (w : world) :
  exists o w',
    create_table retries delay w = Some (o, w') /\
    (connections w <= connections w'
     <= connections w + Z.to_nat retries)%nat /\
    (count_sleeps (trace w')
     <= count_sleeps (trace w) + Z.to_nat retries)%nat /\
    mqtt_metrics w' = mqtt_metrics w /\
    (o = Ok tt ->
     (connections w < connections w')%nat /\
     store w (pred (connections w')) = Healthy).
Proof.
  unfold create_table.
  destruct (create_table_loop_bounded retries delay (Z.to_nat retries) 0 w)
    as (o & w' & Hloop & [Hs Hm] & Hc & Hsl & Hok); [lia|].
  rewrite Z.sub_0_r in Hc, Hsl.
  exists o, w'. repeat split; try assumption; try lia; apply Hok; assumption.
Qed.

(** X16. With [retries] zero or negative the loop is not entered:
    [create_table] raises its exception without attempting a connection,
    even when the store would have served it. *)
Theorem create_table_without_retries (retries delay : Z) (w : world) :
  retries <= 0 ->
  create_table retries delay w = Some (Raise failed_to_connect, w).
Proof.
  intros Hretries. unfold create_table.
  replace (Z.to_nat retries) with 0%nat by lia. simpl.
  destruct (Z.ltb_spec 0 retries); [lia|reflexivity].
Qed.

Lemma create_table_without_retries_witness :
  create_table 0 default_delay (fresh always_healthy)
  = Some (Raise failed_to_connect, fresh always_healthy).
Proof.
  apply (create_table_without_retries 0 default_delay (fresh always_healthy)).
  lia.
Defined.

(** X17. With a negative delay the first attempt that raises
    [OperationalError] (a refused connection, or a failure on a
    connection that stays usable) ends [create_table]: [time.sleep]
    refuses the delay, and its [ValueError] leaves from the handler after
    a single connection, whatever [retries] allows. *)
Theorem create_table_negative_delay_stops (retries delay : Z) (w : world) :
  delay < 0 ->
  0 < retries ->
  raises (store w (connections w)) = Some OperationalError ->
  exists w',
    create_table retries delay w = Some (Raise ValueError, w') /\
    connections w' = S (connections w) /\
    count_sleeps (trace w') = count_sleeps (trace w) /\
    mqtt_metrics w' = mqtt_metrics w.
Proof.
  intros Hdelay Hretries Hop. unfold create_table.
  destruct (Z.to_nat retries) as [|fuel] eqn:Hfuel; [lia|].
  simpl. destruct (Z.ltb_spec 0 retries); [|lia].
  destruct (try_create_table_raises w OperationalError Hop)
    as (w1 & Htry & [Hs1 Hm1] & Hc1 & Hsl1).
  rewrite Htry. cbn [is_OperationalError]. unfold bind, print, sleep.
  destruct (Z.ltb_spec delay 0); [|lia].
  eexists. split; [reflexivity|].
  cbn [log store connections mqtt_metrics trace].
  rewrite count_sleeps_app. cbn. repeat split; try assumption; lia.
Qed.

Lemma create_table_negative_delay_stops_witness :
  exists w',
    create_table default_retries (-1) (fresh unreachable)
    = Some (Raise ValueError, w') /\
    connections w' = 1%nat /\
    count_sleeps (trace w') = 0%nat /\
    mqtt_metrics w' = [].
Proof.
  apply (create_table_negative_delay_stops default_retries (-1)
           (fresh unreachable)).
  - lia.
  - unfold default_retries. lia.
  - reflexivity.
Defined.

(** ** Messages in sequence *)

Lemma oblivious_ret {A} (a : A) : oblivious (ret a).
Proof.
  intros w. exists []. split; [cbn; rewrite app_nil_r; reflexivity|].
  intros t. cbn. rewrite app_nil_r. reflexivity.
Qed.

Lemma oblivious_lift {A} (x : outcome A) : oblivious (lift x).
Proof.
  intros w. exists []. split; [cbn; rewrite app_nil_r; reflexivity|].
  intros t. cbn. rewrite app_nil_r. reflexivity.
Qed.

Lemma oblivious_raise {A} (e : exn) : oblivious (@raise A e).
Proof.
  intros w. exists []. split; [cbn; rewrite app_nil_r; reflexivity|].
  intros t. cbn. rewrite app_nil_r. reflexivity.
Qed.

Lemma oblivious_print (t : text) : oblivious (print t).
Proof. intros w. exists [Printed t]. split; [reflexivity|]. reflexivity. Qed.

Lemma oblivious_connect : oblivious connect.
Proof.
  intros w. exists [Connect]. unfold connect. cbn.
  destruct (store w (connections w)); split; reflexivity.
Qed.

Lemma oblivious_commit (conn : nat) : oblivious (commit conn).
Proof.
  intros w. unfold commit. cbn. destruct (store w conn);
    first [ exists [Commit]; split; reflexivity
          | exists []; split; cbn; rewrite ?app_nil_r; try reflexivity;
            intros t; rewrite app_nil_r; reflexivity ].
Qed.

Lemma oblivious_rollback (conn : nat) : oblivious (rollback conn).
Proof.
  intros w. unfold rollback. cbn. destruct (store w conn);
    first [ exists [Rollback]; split; reflexivity
          | exists []; split; cbn; rewrite ?app_nil_r; try reflexivity;
            intros t; rewrite app_nil_r; reflexivity ].
Qed.

Lemma oblivious_execute_page (conn : nat) (page : list row) :
  oblivious (execute_page conn page).
Proof.
  intros w. unfold execute_page. cbn.
  destruct (rows_adapt_error page); [|destruct (store w conn)];
    first [ exists [InsertRows page]; split; reflexivity
          | exists []; split; cbn; rewrite ?app_nil_r; try reflexivity;
            intros t; rewrite app_nil_r; reflexivity ].
Qed.

Lemma oblivious_bind {A B} (m : M A) (k : A -> M B) :
  oblivious m -> (forall a, oblivious (k a)) -> oblivious (bind m k).
Proof.
  intros Hm Hk w. destruct (Hm w) as (s1 & Ht1 & Hre1).
  unfold bind. destruct (m w) as [[a|e] w1] eqn:Hmw; cbn in Ht1, Hre1.
  - destruct (Hk a w1) as (s2 & Ht2 & Hre2).
    exists (s1 ++ s2). split.
    + rewrite Ht2, Ht1, app_assoc. reflexivity.
    + intros t. rewrite Hre1, Hre2, app_assoc. reflexivity.
  - exists s1. split; [exact Ht1|]. intros t. rewrite Hre1. reflexivity.
Qed.

Lemma oblivious_with_connection {A} (body : nat -> M A) :
  (forall conn, oblivious (body conn)) -> oblivious (with_connection body).
Proof.
  intros Hbody. unfold with_connection.
  apply oblivious_bind; [apply oblivious_connect|].
  intros conn w. destruct (Hbody conn w) as (s1 & Ht1 & Hre1).
  destruct (body conn w) as [[a|e] w1] eqn:Hb; cbn in Ht1, Hre1.
  - destruct (oblivious_bind (commit conn) (fun _ => ret a)
                (oblivious_commit conn) (fun _ => oblivious_ret a) w1)
      as (s2 & Ht2 & Hre2).
    exists (s1 ++ s2). split.
    + rewrite Ht2, Ht1, app_assoc. reflexivity.
    + intros t. rewrite Hre1, Hre2, app_assoc. reflexivity.
  - destruct (oblivious_bind (rollback conn) (fun _ => @raise A e)
                (oblivious_rollback conn) (fun _ => oblivious_raise e) w1)
      as (s2 & Ht2 & Hre2).
    exists (s1 ++ s2). split.
    + rewrite Ht2, Ht1, app_assoc. reflexivity.
    + intros t. rewrite Hre1, Hre2, app_assoc. reflexivity.
Qed.

Lemma oblivious_execute_values (conn : nat) (rows : list row) :
  oblivious (execute_values conn rows).
Proof.
  unfold execute_values.
  induction (paginate rows) as [|page rest IH]; [apply oblivious_ret|].
  cbn [execute_pages]. apply oblivious_bind; [apply oblivious_execute_page|].
  intros _. exact IH.
Qed.

Lemma oblivious_insert_metrics (t : string) (metrics : pyval) :
  oblivious (insert_metrics t metrics).
Proof.
  unfold insert_metrics.
  apply oblivious_bind; [apply oblivious_lift|]. intros ms.
  apply oblivious_bind; [apply oblivious_lift|]. intros [|r rs].
  - apply oblivious_ret.
  - apply oblivious_with_connection. intros conn.
    apply oblivious_bind; [apply oblivious_execute_values|].
    intros _. apply oblivious_commit.
Qed.

Section Sequences.

Variable loads : string -> outcome pyval.

Lemma oblivious_process (msg : mqtt_message) : oblivious (process loads msg).
Proof.
  unfold process.
  apply oblivious_bind; [apply oblivious_lift|]. intros body.
  apply oblivious_bind; [apply oblivious_lift|]. intros metrics.
  apply oblivious_bind; [apply oblivious_insert_metrics|]. intros _.
  apply oblivious_bind; [apply oblivious_lift|]. intros n.
  apply oblivious_print.
Qed.

Lemma oblivious_on_message (msg : mqtt_message) :
  oblivious (on_message loads msg).
Proof.
  intros w. destruct (oblivious_process msg w) as (s1 & Ht1 & Hre1).
  unfold on_message.
  destruct (process loads msg w) as [[[]|e] w1] eqn:Hp;
    cbn [fst snd] in Ht1, Hre1.
  - exists s1. split; [exact Ht1|]. intros t. rewrite Hre1. reflexivity.
  - exists (s1 ++ [Printed (ErrorProcessing (topic msg) e)]). split.
    + cbn. rewrite Ht1, app_assoc. reflexivity.
    + intros t. rewrite Hre1. cbn. unfold log, retrace. cbn.
      rewrite app_assoc. reflexivity.
Qed.

Lemma oblivious_handle_all (msgs : list mqtt_message) :
  oblivious (handle_all loads msgs).
Proof.
  induction msgs as [|msg rest IH]; [apply oblivious_ret|].
  cbn [handle_all]. apply oblivious_bind; [apply oblivious_on_message|].
  intros _. exact IH.
Qed.

(** A message that opened no connection changed nothing but the trace. *)
Lemma on_message_without_connection (msg : mqtt_message) (w : world) :
  connections (snd (on_message loads msg w)) = connections w ->
  snd (on_message loads msg w)
  = retrace (trace (snd (on_message loads msg w))) w.
Proof.
  unfold on_message, process, bind, lift.
  destruct (loads (payload msg)) as [body|e]; [|destruct w; reflexivity].
  destruct (py_get_default body "metrics" (PList [])) as [metrics|e];
    [|destruct w; reflexivity].
  rewrite insert_metrics_unfold.
  destruct (py_iter metrics) as [ms|e]; [|destruct w; reflexivity].
  destruct (build_rows (topic_dimensions (topic msg)) ms) as [[|r rs]|e].
  - destruct (py_len metrics); destruct w; reflexivity.
  - pose proof (write_rows_connects (r :: rs) w) as Hc.
    destruct (write_rows (r :: rs) w) as [[[]|e] w1]; cbn in Hc |- *;
      [destruct (py_len metrics)|]; cbn; intros H; lia.
  - destruct w; reflexivity.
Qed.

(** X18. A message that is rejected before the store is contacted leaves
    no mark on what follows: the messages after it are answered, stored
    and counted exactly as if it had not been received. *)
Theorem rejected_message_does_not_disturb (bad : mqtt_message)
  (rest : list mqtt_message) (w : world) :
  connections (snd (on_message loads bad w)) = connections w ->
  fst (handle_all loads (bad :: rest) w) = fst (handle_all loads rest w) /\
  mqtt_metrics (snd (handle_all loads (bad :: rest) w))
  = mqtt_metrics (snd (handle_all loads rest w)) /\
  connections (snd (handle_all loads (bad :: rest) w))
  = connections (snd (handle_all loads rest w)).
Proof.
  intros Hconn. cbn [handle_all]. unfold bind.
  pose proof (on_message_returns loads bad w) as Hok.
  pose proof (on_message_without_connection bad w Hconn) as Hw.
  destruct (on_message loads bad w) as [o w1]. cbn in Hok, Hw. subst o.
  destruct (oblivious_handle_all rest w) as (s & _ & Hre).
  rewrite Hw, Hre. repeat split.
Qed.

End Sequences.

Lemma rejected_message_does_not_disturb_witness :
  fst (handle_all ascii_json_loads [bad_value_message; scenario_message]
         (fresh always_healthy))
  = fst (handle_all ascii_json_loads [scenario_message]
           (fresh always_healthy)) /\
  mqtt_metrics
    (snd (handle_all ascii_json_loads [bad_value_message; scenario_message]
            (fresh always_healthy)))
  = mqtt_metrics
      (snd (handle_all ascii_json_loads [scenario_message]
              (fresh always_healthy))) /\
  connections
    (snd (handle_all ascii_json_loads [bad_value_message; scenario_message]
            (fresh always_healthy)))
  = connections
      (snd (handle_all ascii_json_loads [scenario_message]
              (fresh always_healthy))).
Proof.
  apply (rejected_message_does_not_disturb ascii_json_loads bad_value_message
           [scenario_message] (fresh always_healthy)).
  vm_compute. reflexivity.
Defined.

(** ** Batch writer, further *)

(** X19. The writer goes to the store exactly when at least one row was
    built, and then once; otherwise, on an empty batch or on a metric
    that does not build, it leaves the world as it found it. *)
Theorem insert_metrics_connects_iff_rows (t : string) (metrics : pyval)
  (w : world) :
  (exists ms r rs,
     py_iter metrics = Ok ms /\
     build_rows (topic_dimensions t) ms = Ok (r :: rs) /\
     connections (snd (insert_metrics t metrics w)) = S (connections w)) \/
  ((forall ms r rs,
      py_iter metrics = Ok ms ->
      build_rows (topic_dimensions t) ms <> Ok (r :: rs)) /\
   snd (insert_metrics t metrics w) = w).
Proof.
  rewrite insert_metrics_unfold.
  destruct (py_iter metrics) as [ms|e] eqn:Hiter.
  - destruct (build_rows (topic_dimensions t) ms) as [[|r rs]|e] eqn:Hrows.
    + right. split; [|reflexivity]. intros ms' r rs Hms. congruence.
    + left. exists ms, r, rs. repeat split; try assumption.
      apply write_rows_connects.
    + right. split; [|reflexivity]. intros ms' r rs Hms. congruence.
  - right. split; [|reflexivity]. intros ms r rs Hms. discriminate.
Qed.

(** X20. Every row of a batch carries the five labels of the message's
    topic: the dimensions are decoded once and shared by all the rows. *)
Theorem rows_carry_topic_labels (t : string) (ms : list pyval)
  (rows : list row) :
  build_rows (topic_dimensions t) ms = Ok rows ->
  Forall (fun r => row_labels r = labels (topic_dimensions t)) rows.
Proof.
  intros H. apply build_rows_Forall2 in H.
  induction H as [|m r rest rs Hm _ IH]; constructor; [|exact IH].
  unfold build_row, obind in Hm.
  destruct (py_get m "name"); [|discriminate].
  destruct (py_get m "alias"); [|discriminate].
  destruct (value_field m); [|discriminate].
  destruct (py_get m "timestamp") as [ts|]; [|discriminate].
  destruct (py_mul_1000 ts); [|discriminate].
  inversion Hm. reflexivity.
Qed.

Lemma rows_carry_topic_labels_witness :
  Forall (fun r => row_labels r = labels (topic_dimensions scenario_topic))
         [scenario_row; second_row].
Proof.
  apply (rows_carry_topic_labels scenario_topic
           [PDict good_metric; PDict second_metric]
           [scenario_row; second_row]).
  vm_compute. reflexivity.
Defined.

(** ** Query service, further *)

(** X21. The latest-reading endpoint returns a body exactly when a row
    was fetched and has a [Temperatur] column, and the body is that value
    under the key [Temperatur]; a row without the column is a [KeyError]
    answered 500; and every reply is either a returned body or an
    [HTTPException] of status 500. *)
Theorem latest_temperature_answers (r : Api.reply) :
  (forall body,
     Api.get_latest_temperature r = Api.Returns body <->
     exists row v,
       r = Api.Latest row /\ dict_get row "Temperatur" = Some v /\
       body = [("Temperatur", v)]) /\
  (forall row,
     r = Api.Latest row -> dict_get row "Temperatur" = None ->
     Api.get_latest_temperature r
     = Api.Raises (Api.HTTPException 500
                     (Api.InternalServerError Api.KeyError))) /\
  ((exists body, Api.get_latest_temperature r = Api.Returns body) \/
   (exists d, Api.get_latest_temperature r
              = Api.Raises (Api.HTTPException 500 d))).
Proof.
  unfold Api.get_latest_temperature. repeat split.
  - intros H. destruct r as [row| |e|e]; simpl in H.
    + destruct (dict_get row "Temperatur") as [v|] eqn:Hv; simpl in H;
        [|discriminate].
      inversion H. exists row, v. repeat split. exact Hv.
    + discriminate.
    + destruct e; discriminate.
    + destruct e; discriminate.
  - intros (row & v & -> & Hv & ->). simpl. rewrite Hv. reflexivity.
  - intros row -> Hv. simpl. rewrite Hv. reflexivity.
  - destruct r as [row| |e|e]; simpl.
    + destruct (dict_get row "Temperatur"); [left|right]; eexists;
        reflexivity.
    + right. eexists. reflexivity.
    + right. destruct e; eexists; reflexivity.
    + right. destruct e; eexists; reflexivity.
Qed.

(** ** The handler as the client calls it *)

Section RawHandler.

Variable loads : string -> outcome pyval.
Variable decode : string -> outcome string.

(** X2. With the topic decoded at each access, the handler behaves on a
    message whose topic decodes as [on_message] on the decoded topic,
    and so returns without an exception; on a message whose topic does
    not decode it raises: whatever happened in the [try], the print of
    the [except] clause decodes the topic again and its exception
    leaves the handler, nothing having been printed or sent to the
    store. *)
Theorem on_message_raises_on_undecodable_topic (msg : raw_message)
  (w : world) :
  (forall t,
     decode (topic_bytes msg) = Ok t ->
     on_message_raw loads decode msg w
     = on_message loads {| topic := t; payload := payload_bytes msg |} w /\
     fst (on_message_raw loads decode msg w) = Ok tt) /\
  (forall e,
     decode (topic_bytes msg) = Raise e ->
     on_message_raw loads decode msg w = (Raise e, w)).
Proof.
  split.
  - intros t Ht.
    assert (Heq : on_message_raw loads decode msg w
                  = on_message loads
                      {| topic := t; payload := payload_bytes msg |} w).
    { unfold on_message_raw, process_raw, on_message, process, bind, lift.
      cbn [topic payload]. rewrite Ht.
      destruct (loads (payload_bytes msg)) as [body|e]; [|reflexivity].
      destruct (py_get_default body "metrics" (PList [])) as [metrics|e];
        [|reflexivity].
      destruct (insert_metrics t metrics w) as [[[]|e] w1]; [|reflexivity].
      destruct (py_len metrics); reflexivity. }
    split; [exact Heq|]. rewrite Heq. apply on_message_returns.
  - intros e He.
    unfold on_message_raw, process_raw, bind, lift. rewrite He.
    destruct (loads (payload_bytes msg)) as [body|e0]; [|reflexivity].
    destruct (py_get_default body "metrics" (PList [])); reflexivity.
Qed.

End RawHandler.

(** A topic holding the byte 255, which no UTF-8 text contains. *)
Example undecodable_topic_raises :
  on_message_raw ascii_json_loads ascii_decode
    {| topic_bytes := String (ascii_of_nat 255) "/line1";
       payload_bytes := payload scenario_message |}
    (fresh always_healthy)
  = (Raise UnicodeDecodeError, fresh always_healthy).
Proof. vm_compute. reflexivity. Qed.

(** A metric name holding U+0000 builds a row, and the row is refused
    when it is adapted, after the connection was opened: the handler
    reports the [ValueError] and nothing is stored. *)
Example nul_in_name_is_refused :
  on_message ascii_json_loads
    {| topic := scenario_topic;
       payload := json "{'metrics':[{'name':'a\u0000b','value':1,'timestamp':1}]}" |}
    (fresh always_healthy)
  = (Ok tt,
     {| store := always_healthy;
        connections := 1;
        pending := [];
        mqtt_metrics := [];
        trace := [Connect; Rollback;
                  Printed (ErrorProcessing scenario_topic ValueError)] |}).
Proof. vm_compute. reflexivity. Qed.
